(** * EquilateralAgents GitHub Action: result aggregation and reporting

    A shallow embedding of [src/index.js] (summary generation, issue
    extraction, annotations, pull-request comment, check-run report) and of
    the workflow table of [src/agents.js], with the properties of the
    aggregation and reporting pipeline proved about it. *)

From Stdlib Require Import ZArith DecimalString.
From stdpp Require Import base list strings gmap.

(** ** JavaScript values as the code uses them *)

Module Js.

(** The line feed written [\n] in the template literals of the source. *)
Definition nl : string := String (Ascii.ascii_of_nat 10) EmptyString.

(** [`${n}`] for a non-negative integer such as an array length. *)
Definition string_of_nat (n : nat) : string :=
  NilZero.string_of_uint (Nat.to_uint n).

(** The Number value of a positive integer: the nearest double, ties to the
    even mantissa; [None] stands for [Infinity]. *)
Definition double_of_positive (z : Z) : option Z :=
  let bits := (Z.log2 z + 1)%Z in
  if (bits <=? 53)%Z then Some z
  else
    let e := (bits - 53)%Z in
    let q := Z.shiftr z e in
    let rest := (z - Z.shiftl q e)%Z in
    let half := Z.shiftl 1 (e - 1) in
    let q := if (half <? rest)%Z || ((rest =? half)%Z && Z.odd q)
             then (q + 1)%Z else q in
    let x := Z.shiftl q e in
    if (x <? 2 ^ 1024)%Z then Some x else None.

(** The integer with the fewest significant digits that still reads back as
    the double [x]: the multiple of the largest power of ten, at most
    [10 ^ d], next to [x] whose Number value is [x]; of two such neighbours
    the closer one, and on a tie the one with the even last digit. *)
Fixpoint shortest (x : Z) (d : nat) : Z :=
  let p := (10 ^ Z.of_nat d)%Z in
  let below := (x / p * p)%Z in
  let above := (below + p)%Z in
  let reads c := bool_decide (double_of_positive c = Some x) in
  let okBelow := (0 <? below)%Z && reads below in
  let okAbove := reads above in
  if okBelow && okAbove then
    if (x - below <? above - x)%Z then below
    else if (above - x <? x - below)%Z then above
    else if Z.even (below / p) then below else above
  else if okBelow then below
  else if okAbove then above
  else match d with
       | O => x
       | S d' => shortest x d'
       end.

(** The digits of a numeral without its trailing zeros. *)
Fixpoint significant (digits : string) : string :=
  match digits with
  | EmptyString => EmptyString
  | String c rest =>
      match significant rest with
      | EmptyString =>
          if Ascii.eqb c (Ascii.ascii_of_nat 48) then EmptyString
          else String c EmptyString
      | kept => String c kept
      end
  end.

(** [Number::toString] of a double whose shortest integer is [c]: the plain
    numeral up to 21 digits, the exponent form beyond. *)
Definition numeral (c : Z) : string :=
  let digits := NilZero.string_of_int (Z.to_int c) in
  let n := String.length digits in
  if bool_decide (n ≤ 21) then digits
  else
    match significant digits with
    | String first EmptyString =>
        String first EmptyString +:+ "e+"
          +:+ NilZero.string_of_uint (Nat.to_uint (n - 1))
    | String first more =>
        String first EmptyString +:+ "." +:+ more +:+ "e+"
          +:+ NilZero.string_of_uint (Nat.to_uint (n - 1))
    | EmptyString => digits
    end.

(** [`${z}`] for an integer-valued number. A safe integer, up to
    [2 ^ 53 - 1] in absolute value, prints as its decimal digits. Beyond
    that the number is the double nearest to [z] and prints with the fewest
    digits that read back as that double: zero-padded up to 21 digits, in
    exponent form from [1e+21], and as [Infinity] past the largest
    double. *)
Definition string_of_Z (z : Z) : string :=
  if (Z.abs z <=? 9007199254740991)%Z then NilZero.string_of_int (Z.to_int z)
  else
    (if (z <? 0)%Z then "-" else "")
      +:+ match double_of_positive (Z.abs z) with
          | Some x =>
              numeral
                (shortest x
                   (String.length (NilZero.string_of_int (Z.to_int x))))
          | None => "Infinity"
          end.

(** [`${v}`] for a property holding a string or nothing: an absent property
    reads as [undefined], which a template literal prints as the word
    [undefined]. *)
Definition template (v : option string) : string :=
  match v with
  | Some s => s
  | None => "undefined"
  end.

(** Truthiness of a string-or-absent property: [undefined] and the empty
    string are falsy, every other string is truthy. *)
Definition truthy_string (v : option string) : bool :=
  match v with
  | Some (String _ _) => true
  | _ => false
  end.

(** [v || d] for a string-or-absent property [v] and a string [d]. *)
Definition or_string (v : option string) (d : string) : string :=
  match v with
  | Some s => if truthy_string (Some s) then s else d
  | None => d
  end.

(** [v || d] for an integer-or-absent property and an integer default:
    [undefined] and [0] are falsy. *)
Definition or_number (v : option Z) (d : Z) : Z :=
  match v with
  | Some z => if (z =? 0)%Z then d else z
  | None => d
  end.

(** [`${v || d}`] for an integer-or-absent property and a string default, as
    in [issue.line || '?']. *)
Definition template_number_or (v : option Z) (d : string) : string :=
  match v with
  | Some z => if (z =? 0)%Z then d else string_of_Z z
  | None => d
  end.

(** [v || []] for an array-or-absent property: every array, the empty one
    too, is truthy. *)
Definition or_empty {A} (v : option (list A)) : list A :=
  match v with
  | Some l => l
  | None => []
  end.

(** What evaluating a function body yields: a value, or a thrown
    [TypeError] (reading a property of [undefined]). *)
Inductive completion (A : Type) : Type :=
| Normal (a : A)
| ThrowTypeError.
Global Arguments Normal {A} a.
Global Arguments ThrowTypeError {A}.

Definition bind {A B} (m : completion A) (k : A → completion B)
  : completion B :=
  match m with
  | Normal a => k a
  | ThrowTypeError => ThrowTypeError
  end.

(** [o.p] where [o] itself may be [undefined]: reading a property of
    [undefined] throws. *)
Definition member {A} (o : option A) : completion A :=
  match o with
  | Some a => Normal a
  | None => ThrowTypeError
  end.

(** How an awaited promise settles: resolved with a value, or rejected with
    an error of that message. *)
Inductive settled (A : Type) : Type :=
| Resolved (a : A)
| Rejected (message : string).
Global Arguments Resolved {A} a.
Global Arguments Rejected {A} message.

(** [Array.prototype.forEach] with a callback that updates the variables it
    closes over (threaded here as the state [S]) and may throw: the first
    throw ends the loop. *)
Fixpoint forEach {A S} (f : S → A → completion S) (l : list A) (s : S)
  : completion S :=
  match l with
  | [] => Normal s
  | x :: l' => bind (f s x) (forEach f l')
  end.

(** The names an object literal inherits from [Object.prototype]; each is
    bound to a function, except [__proto__], bound to the prototype object
    itself. All of these values are truthy. *)
Definition Object_prototype : list string :=
  [ "constructor"; "__defineGetter__"; "__defineSetter__"; "hasOwnProperty";
    "__lookupGetter__"; "__lookupSetter__"; "isPrototypeOf";
    "propertyIsEnumerable"; "toString"; "valueOf"; "__proto__";
    "toLocaleString" ].

(** The value of [o[key]] for an object literal [o] with own properties of
    type [A]. *)
Inductive property (A : Type) : Type :=
| Own (a : A)
| Inherited (name : string)
| Undefined.
Global Arguments Own {A} a.
Global Arguments Inherited {A} name.
Global Arguments Undefined {A}.

(** [o[key]]: an own property first, then the prototype chain. *)
Definition get {A} (o : gmap string A) (key : string) : property A :=
  match o !! key with
  | Some a => Own a
  | None =>
      if bool_decide (key ∈ Object_prototype) then Inherited key
      else Undefined
  end.

End Js.

(** [completion] is a monad; [x ← m; k] is stdpp's notation for [bind]. *)
#[global] Instance completion_ret : MRet Js.completion := @Js.Normal.
#[global] Instance completion_bind : MBind Js.completion :=
  λ A B k m, Js.bind m k.

(** ** The workflow table ([agents.js]) *)

Module Agents.

Record TaskDescriptor := {
  agentId : string;
  taskType : string
}.

Record WorkflowDefinition := {
  tasks : list TaskDescriptor
}.

(** The object literal [workflows] of [getWorkflowDefinition]. *)
Definition workflows : gmap string WorkflowDefinition :=
  <["code-review" := {| tasks := [
      {| agentId := "github-code-analyzer"; taskType := "analyze" |};
      {| agentId := "github-security-scanner"; taskType := "scan" |} ] |}]>
  (<["full-analysis" := {| tasks := [
      {| agentId := "github-code-analyzer"; taskType := "analyze" |};
      {| agentId := "github-security-scanner"; taskType := "scan" |};
      {| agentId := "github-test-runner"; taskType := "test" |} ] |}]>
  (<["pre-deploy" := {| tasks := [
      {| agentId := "github-test-runner"; taskType := "test" |};
      {| agentId := "github-security-scanner"; taskType := "scan" |};
      {| agentId := "github-deployment-validator";
         taskType := "validate" |} ] |}]>
  (<["security-scan" := {| tasks := [
      {| agentId := "github-security-scanner";
         taskType := "security_scan" |} ] |}]> ∅))).

(** [workflows[workflowType] || { tasks: [] }]: the fallback is taken only
    when the lookup is falsy, that is [undefined]. *)
Definition getWorkflowDefinition (workflowType : string)
  : Js.property WorkflowDefinition :=
  match Js.get workflows workflowType with
  | Js.Undefined => Js.Own {| tasks := [] |}
  | found => found
  end.

End Agents.

(** ** Data model of [index.js] *)

(** A finding, as the fields [index.js] reads from it. *)
Record Issue := {
  severity : option string;
  file : option string;
  line : option Z;
  message : option string;
  title : option string
}.

(** [task.result]: what an agent returned for a task. *)
Record TaskResult := {
  summary : option string;
  issues : option (list Issue)
}.

(** One element of [result.results]; [result] is absent when the entry
    carries no payload. *)
Record TaskOutcome := {
  agentId : string;
  result : option TaskResult
}.

(** The object returned by [orchestrator.executeWorkflow]. *)
Record WorkflowResult := {
  results : option (list TaskOutcome)
}.

#[global] Instance Issue_eq_dec : EqDecision Issue.
Proof. solve_decision. Defined.

(** [i.severity === s] *)
Definition hasSeverity (s : string) (i : Issue) : Prop :=
  severity i = Some s.

#[global] Instance hasSeverity_dec s i : Decision (hasSeverity s i).
Proof. unfold hasSeverity. apply _. Defined.

(** ** Result normalizer *)

(** The callback of [tasks.forEach] in [generateSummary]; [text] is the
    variable [summary] it appends to. *)
Definition summaryStep (text : string) (task : TaskOutcome)
  : Js.completion string :=
  r ← Js.member (result task);
  if Js.truthy_string (summary r) then
    Js.Normal
      (text +:+ Js.nl +:+ agentId task +:+ ": " +:+ Js.template (summary r))
  else Js.Normal text.

(** [generateSummary(result)] *)
Definition generateSummary (res : WorkflowResult) : Js.completion string :=
  let tasks := Js.or_empty (results res) in
  let text :=
    "Analyzed " +:+ Js.string_of_nat (length tasks) +:+ " workflow tasks"
      +:+ Js.nl in
  Js.forEach summaryStep tasks text.

(** The callback of [tasks.forEach] in [extractIssues]; [found] is the array
    [issues] it pushes to. *)
Definition issuesStep (found : list Issue) (task : TaskOutcome)
  : Js.completion (list Issue) :=
  r ← Js.member (result task);
  match issues r with
  | Some l => Js.Normal (found ++ l)
  | None => Js.Normal found
  end.

(** [extractIssues(result)] *)
Definition extractIssues (res : WorkflowResult)
  : Js.completion (list Issue) :=
  let tasks := Js.or_empty (results res) in
  Js.forEach issuesStep tasks [].

(** ** Annotations (the loop of [run]) *)

Module Annotation.

(** The properties object passed to [core.error] and [core.warning]. *)
Record t := {
  path : string;
  start_line : Z;
  end_line : Z;
  annotation_level : string;
  message : option string;
  title : string
}.

End Annotation.

(** ** Requests handed to the publisher *)

Module Comments.

(** The argument of [octokit.rest.issues.createComment]. *)
Record createComment := {
  owner : string;
  repo : string;
  issue_number : nat;
  body : string
}.

End Comments.

Module Checks.

Record output := {
  title : string;
  summary : string;
  text : string
}.

(** The argument of [octokit.rest.checks.create]. *)
Record create := {
  owner : string;
  repo : string;
  name : string;
  head_sha : string;
  status : string;
  conclusion : string;
  output_ : output
}.

End Checks.

(** The part of [github.context] the reports read. *)
Record Context := {
  owner : string;
  repo : string;
  sha : string;
  pull_request : option nat
}.

(** What [run] does to the outside, in order. *)
Inductive Effect :=
| SetOutput (name value : string)
| CoreError (msg : option string) (properties : Annotation.t)
| CoreWarning (msg : option string) (properties : Annotation.t)
| CreateComment (request : Comments.createComment)
| CreateCheck (request : Checks.create)
| SetFailed (msg : string).

(** The body of the callback of [issues.forEach] in [run]: one call of
    [core.error] or [core.warning] for the issue. *)
Definition annotate (issue : Issue) : Effect :=
  let level :=
    if bool_decide (severity issue = Some "critical") then "error"
    else "warning" in
  let annotation := {|
    Annotation.path := Js.or_string (file issue) "unknown";
    Annotation.start_line := Js.or_number (line issue) 1;
    Annotation.end_line := Js.or_number (line issue) 1;
    Annotation.annotation_level :=
      if bool_decide (level = "error") then "failure" else "warning";
    Annotation.message := message issue;
    Annotation.title := Js.or_string (title issue) "Issue found"
  |} in
  if bool_decide (level = "error") then CoreError (message issue) annotation
  else CoreWarning (message issue) annotation.

(** [issues.forEach(issue => { ... })] of [run], threading the calls made so
    far. *)
Definition createAnnotations (issues : list Issue) (done : list Effect)
  : list Effect :=
  fold_left (λ done issue, done ++ [annotate issue]) issues done.

(** The annotation carried by a call of [core.error] or [core.warning]. *)
Definition annotationOf (e : Effect) : option Annotation.t :=
  match e with
  | CoreError _ a | CoreWarning _ a => Some a
  | _ => None
  end.

(** ** Pull-request comment *)

(** One list item of a severity section. *)
Definition issueLine (issue : Issue) : string :=
  "- **" +:+ Js.template (file issue) +:+ ":"
    +:+ Js.template_number_or (line issue) "?" +:+ "** - "
    +:+ Js.template (message issue) +:+ Js.nl.

(** [if (group.length > 0) { body += heading; group.forEach(...); body +=
    '\n' }], the block [createPullRequestComment] repeats for each of the
    three groups. *)
Definition appendSection (heading : string) (group : list Issue)
    (body : string) : string :=
  if bool_decide (0 < length group) then
    let body :=
      body +:+ "#### " +:+ heading +:+ " ("
        +:+ Js.string_of_nat (length group) +:+ ")" +:+ Js.nl in
    let body := fold_left (λ body issue, body +:+ issueLine issue) group body in
    body +:+ Js.nl
  else body.

(** The text [createPullRequestComment] builds in [body]. *)
Definition commentBody (summary : string) (issues : list Issue)
    (aiEnabled : bool) : string :=
  let body := "## 🤖 EquilateralAgents Analysis" +:+ Js.nl +:+ Js.nl in
  let body := body +:+ "### Summary" +:+ Js.nl +:+ summary +:+ Js.nl in
  let body :=
    if bool_decide (0 < length issues) then
      let body :=
        body +:+ Js.nl +:+ "### Issues Found ("
          +:+ Js.string_of_nat (length issues) +:+ ")" +:+ Js.nl +:+ Js.nl in
      let critical := filter (hasSeverity "critical") issues in
      let warnings := filter (hasSeverity "warning") issues in
      let info := filter (hasSeverity "info") issues in
      let body := appendSection "🔴 Critical" critical body in
      let body := appendSection "🟡 Warnings" warnings body in
      let body := appendSection "ℹ️ Info" info body in
      body
    else body +:+ Js.nl +:+ "✅ No issues found!" +:+ Js.nl in
  let body := body +:+ Js.nl +:+ "---" +:+ Js.nl in
  let body :=
    body +:+ "*Powered by [EquilateralAgents](https://github.com/marketplace/equilateral-agents)" in
  let body :=
    if aiEnabled then body +:+ " • AI-Enhanced Analysis Enabled" else body in
  body +:+ "*".

(** [createPullRequestComment]: the request sent to the publisher. It is
    called only when the context has a pull request, whose number is
    [prNumber]. *)
Definition createPullRequestComment (context : Context) (prNumber : nat)
    (summary : string) (issues : list Issue) (aiEnabled : bool)
  : Comments.createComment :=
  {| Comments.owner := owner context;
     Comments.repo := repo context;
     Comments.issue_number := prNumber;
     Comments.body := commentBody summary issues aiEnabled |}.

(** ** Check run *)

(** [createCheckRunReport]: the request sent to the publisher; [resultText]
    stands for [JSON.stringify(result, null, 2)]. *)
Definition createCheckRunReport (context : Context) (summary : string)
    (issues : list Issue) (resultText : string) : Checks.create :=
  let criticalCount := length (filter (hasSeverity "critical") issues) in
  let conclusion :=
    if bool_decide (0 < criticalCount) then "failure" else "success" in
  let title :=
    if bool_decide (0 < criticalCount) then
      "Found " +:+ Js.string_of_nat criticalCount +:+ " critical issues"
    else "All checks passed" in
  {| Checks.owner := owner context;
     Checks.repo := repo context;
     Checks.name := "EquilateralAgents";
     Checks.head_sha := sha context;
     Checks.status := "completed";
     Checks.conclusion := conclusion;
     Checks.output_ :=
       {| Checks.title := title;
          Checks.summary := summary;
          Checks.text := resultText |} |}.

(** ** The coordinator ([run]) *)

(** The action inputs [run] branches on. *)
Record Inputs := {
  aiEnabled : bool;
  createPRComment : bool;
  createCheckRun : bool;
  failOnErrors : bool
}.

(** What the collaborators of [run] answer: the two serializations of the
    workflow result, how the awaited calls of the publisher and of
    [orchestrator.stop] settle (the publisher resolves with the identifier
    of what it created), and the message of the error the engine throws. *)
Record External := {
  resultJson : string;
  resultText : string;
  commentCreated : Js.settled string;
  checkCreated : Js.settled string;
  stopped : Js.settled unit;
  errorMessage : string
}.

(** The [catch] block of [run], entered with the effects made so far. *)
Definition caught (done : list Effect) (message : string) : list Effect :=
  done ++ [ SetFailed ("Action failed: " +:+ message) ].

(** [run] from "Fail if critical errors found" to the end of the [try]
    block: the failure signal, then [await orchestrator.stop()]. *)
Definition finish (inputs : Inputs) (ext : External)
    (criticalIssues : list Issue) (done : list Effect) : list Effect :=
  let done :=
    if failOnErrors inputs && bool_decide (0 < length criticalIssues) then
      done ++
        [ SetFailed
            ("Found " +:+ Js.string_of_nat (length criticalIssues)
               +:+ " critical issues") ]
    else done in
  match stopped ext with
  | Js.Resolved _ => done
  | Js.Rejected message => caught done message
  end.

(** [run] from "Create check run if applicable" on: when the awaited
    [createCheckRunReport] rejects, control passes to the [catch] block and
    the rest of the [try] block is skipped. *)
Definition checkRunStep (inputs : Inputs) (context : Context)
    (ext : External) (summary : string) (issues : list Issue)
    (done : list Effect) : list Effect :=
  let criticalIssues := filter (hasSeverity "critical") issues in
  if createCheckRun inputs then
    let done :=
      done ++
        [ CreateCheck
            (createCheckRunReport context summary issues (resultText ext)) ] in
    match checkCreated ext with
    | Js.Resolved id =>
        finish inputs ext criticalIssues
          (done ++ [ SetOutput "check-run-id" id ])
    | Js.Rejected message => caught done message
    end
  else finish inputs ext criticalIssues done.

(** [run] from "Create PR comment if applicable" on: when the awaited
    [createPullRequestComment] rejects, control passes to the [catch] block
    and the rest of the [try] block is skipped. *)
Definition commentStep (inputs : Inputs) (context : Context)
    (ext : External) (summary : string) (issues : list Issue)
    (done : list Effect) : list Effect :=
  match pull_request context with
  | Some prNumber =>
      if createPRComment inputs then
        let done :=
          done ++
            [ CreateComment
                (createPullRequestComment context prNumber summary issues
                   (aiEnabled inputs)) ] in
        match commentCreated ext with
        | Js.Resolved id =>
            checkRunStep inputs context ext summary issues
              (done ++ [ SetOutput "pr-comment-id" id ])
        | Js.Rejected message => caught done message
        end
      else checkRunStep inputs context ext summary issues done
  | None => checkRunStep inputs context ext summary issues done
  end.

(** [run] from "Process results" on, once [generateSummary] and
    [extractIssues] have returned: the outputs, the annotations, and the
    steps above. *)
Definition report (inputs : Inputs) (context : Context) (ext : External)
    (summary : string) (issues : list Issue) : list Effect :=
  let criticalIssues := filter (hasSeverity "critical") issues in
  let done :=
    [ SetOutput "results" (resultJson ext);
      SetOutput "summary" summary;
      SetOutput "issues-found" (Js.string_of_nat (length issues));
      SetOutput "critical-issues"
        (Js.string_of_nat (length criticalIssues)) ] in
  let done := createAnnotations issues done in
  commentStep inputs context ext summary issues done.

(** [run], given the workflow result the orchestrator returned: the [try]
    block and its [catch]. Nothing is reported before [generateSummary] and
    [extractIssues] have both returned; an error thrown by either is caught
    here, a rejected call of the publisher in [report]. *)
Definition run (inputs : Inputs) (context : Context) (ext : External)
    (res : WorkflowResult) : list Effect :=
  match
    summary ← generateSummary res;
    issues ← extractIssues res;
    mret (report inputs context ext summary issues)
  with
  | Js.Normal done => done
  | Js.ThrowTypeError => [ SetFailed ("Action failed: " +:+ errorMessage ext) ]
  end.

(** ** The reports as the specification words them

    Closed forms the code is compared with: each names, in the specification's
    terms, what a loop of the source accumulates. *)

Module Spec.

(** An issue's severity is one of the three the reports know. *)
Definition recognized (i : Issue) : Prop :=
  hasSeverity "critical" i ∨ hasSeverity "warning" i ∨ hasSeverity "info" i.

#[global] Instance recognized_dec i : Decision (recognized i).
Proof. unfold recognized. apply _. Defined.

(** The outcome carries a result payload. *)
Definition carriesPayload (t : TaskOutcome) : Prop := is_Some (result t).

#[global] Instance carriesPayload_dec t : Decision (carriesPayload t).
Proof. unfold carriesPayload. apply _. Defined.

(** The header line of the summary for [n] tasks. *)
Definition summaryHeader (n : nat) : string :=
  "Analyzed " +:+ Js.string_of_nat n +:+ " workflow tasks" +:+ Js.nl.

(** The summary line of one outcome: on a line of its own,
    [<agentId>: <summary>] when the payload has a non-empty summary, and
    nothing otherwise. *)
Definition summaryLine (t : TaskOutcome) : string :=
  match result t with
  | Some r =>
      match summary r with
      | Some (String c s) => Js.nl +:+ agentId t +:+ ": " +:+ String c s
      | _ => ""
      end
  | None => ""
  end.

Definition summaryLines (tasks : list TaskOutcome) : string :=
  foldr (λ t s, summaryLine t +:+ s) "" tasks.

(** The summary line as claimed: a line for every payload whose [summary]
    field is present. *)
Definition summaryLineClaimed (t : TaskOutcome) : string :=
  match result t with
  | Some r =>
      match summary r with
      | Some s => Js.nl +:+ agentId t +:+ ": " +:+ s
      | None => ""
      end
  | None => ""
  end.

(** The summary as claimed, for any sequence of outcomes. *)
Definition summaryClaimed (tasks : list TaskOutcome) : string :=
  summaryHeader (length tasks)
    +:+ foldr (λ t s, summaryLineClaimed t +:+ s) "" tasks.

(** The issues one outcome contributes: those of its payload, none when the
    payload or its [issues] field is missing. *)
Definition contribution (t : TaskOutcome) : list Issue :=
  match result t with
  | Some r => Js.or_empty (issues r)
  | None => []
  end.

(** The aggregated issue list: the contributions in task order. *)
Definition aggregated (tasks : list TaskOutcome) : list Issue :=
  concat (map contribution tasks).

(** The text of a line number: its decimal digits for a safe integer, the
    engine's rendering of the number beyond. *)
Definition lineNumber (z : Z) : string :=
  if decide (- 9007199254740991 ≤ z ≤ 9007199254740991)%Z
  then NilZero.string_of_int (Z.to_int z)
  else Js.string_of_Z z.

(** The item of an issue: "- **<file>:<line or ?>** - <message>" and a line
    feed, where the line is shown as "?" when absent or zero, and an absent
    file or message as the word "undefined". *)
Definition item (i : Issue) : string :=
  "- **"
    +:+ match file i with Some f => f | None => "undefined" end
    +:+ ":"
    +:+ match line i with
        | Some z => if decide (z = 0%Z) then "?" else lineNumber z
        | None => "?"
        end
    +:+ "** - "
    +:+ match message i with Some m => m | None => "undefined" end
    +:+ Js.nl.

(** The list items of a group, in group order. *)
Definition listing (group : list Issue) : string :=
  foldr (λ i s, item i +:+ s) "" group.

(** A severity subsection: heading with the group's size, one item per
    issue, a blank line; nothing at all for an empty group. *)
Definition subsection (heading : string) (group : list Issue) : string :=
  match group with
  | [] => ""
  | _ =>
      "#### " +:+ heading +:+ " (" +:+ Js.string_of_nat (length group)
        +:+ ")" +:+ Js.nl +:+ listing group +:+ Js.nl
  end.

Definition header : string :=
  "## 🤖 EquilateralAgents Analysis" +:+ Js.nl +:+ Js.nl
    +:+ "### Summary" +:+ Js.nl.

Definition issuesFound (n : nat) : string :=
  Js.nl +:+ "### Issues Found (" +:+ Js.string_of_nat n +:+ ")"
    +:+ Js.nl +:+ Js.nl.

Definition noIssues : string :=
  Js.nl +:+ "✅ No issues found!" +:+ Js.nl.

(** The attribution footer, with the AI note exactly when [aiEnabled]. *)
Definition footer (aiEnabled : bool) : string :=
  Js.nl +:+ "---" +:+ Js.nl
    +:+ "*Powered by [EquilateralAgents](https://github.com/marketplace/equilateral-agents)"
    +:+ (if aiEnabled then " • AI-Enhanced Analysis Enabled" else "")
    +:+ "*".

(** The three subsections, in the fixed order critical, warning, info. *)
Definition subsections (issues : list Issue) : string :=
  subsection "🔴 Critical" (filter (hasSeverity "critical") issues)
    +:+ subsection "🟡 Warnings" (filter (hasSeverity "warning") issues)
    +:+ subsection "ℹ️ Info" (filter (hasSeverity "info") issues).

(** The comment document. *)
Definition document (summary : string) (issues : list Issue)
    (aiEnabled : bool) : string :=
  header +:+ summary +:+ Js.nl
    +:+ match issues with
        | [] => noIssues
        | _ => issuesFound (length issues) +:+ subsections issues
        end
    +:+ footer aiEnabled.

(** The annotation of an issue, field by field. *)
Definition annotation (i : Issue) : Annotation.t :=
  {| Annotation.path :=
       match file i with Some (String c s) => String c s | _ => "unknown" end;
     Annotation.start_line :=
       match line i with Some z => if decide (z = 0%Z) then 1%Z else z | None => 1%Z end;
     Annotation.end_line :=
       match line i with Some z => if decide (z = 0%Z) then 1%Z else z | None => 1%Z end;
     Annotation.annotation_level :=
       if decide (hasSeverity "critical" i) then "failure" else "warning";
     Annotation.message := message i;
     Annotation.title :=
       match title i with Some (String c s) => String c s | _ => "Issue found" end
  |}.

(** The annotation as claimed: [file] and [title] default only when absent. *)
Definition annotationClaimed (i : Issue) : Annotation.t :=
  {| Annotation.path := default "unknown" (file i);
     Annotation.start_line :=
       match line i with Some z => if decide (z = 0%Z) then 1%Z else z | None => 1%Z end;
     Annotation.end_line :=
       match line i with Some z => if decide (z = 0%Z) then 1%Z else z | None => 1%Z end;
     Annotation.annotation_level :=
       if decide (hasSeverity "critical" i) then "failure" else "warning";
     Annotation.message := message i;
     Annotation.title := default "Issue found" (title i)
  |}.

(** A comment is asked for: create-pr-comment is set and the event has a
    pull request. *)
Definition commentAsked (inputs : Inputs) (context : Context) : bool :=
  createPRComment inputs && bool_decide (is_Some (pull_request context)).

(** The message an awaited call rejected with, if it did. *)
Definition rejection {A} (r : Js.settled A) : option string :=
  match r with
  | Js.Rejected message => Some message
  | Js.Resolved _ => None
  end.

(** The failure signals of a run whose outcomes all carry a payload, for
    the issues [found]. A rejected call that was asked for gives the one
    signal "Action failed: <message>" and ends the run; otherwise the run
    signals "Found <n> critical issues" under fail-on-errors when there is a
    critical issue, and "Action failed: <message>" when stopping the
    orchestrator rejects. *)
Definition failureSignals (inputs : Inputs) (context : Context)
    (ext : External) (found : list Issue) : list string :=
  let n := length (filter (hasSeverity "critical") found) in
  match
    (if commentAsked inputs context then rejection (commentCreated ext)
     else None),
    (if createCheckRun inputs then rejection (checkCreated ext) else None)
  with
  | Some message, _ => [ "Action failed: " +:+ message ]
  | None, Some message => [ "Action failed: " +:+ message ]
  | None, None =>
      (if failOnErrors inputs && bool_decide (0 < n)
       then [ "Found " +:+ Js.string_of_nat n +:+ " critical issues" ]
       else [])
      ++ match rejection (stopped ext) with
         | Some message => [ "Action failed: " +:+ message ]
         | None => []
         end
  end.

End Spec.

(** ** AI configuration and agent registration *)

(** The variables of [process.env] that [run] and [registerGitHubAgents]
    read or write; an unset variable reads as [undefined]. *)
Record ProcessEnv := {
  LLM_PROVIDER : option string;
  OPENAI_API_KEY : option string;
  ANTHROPIC_API_KEY : option string
}.

(** "Configure AI if enabled" of [run]: the environment afterwards and the
    lines passed to [core.debug]. *)
Definition configureAI (aiEnabled : bool) (llmProvider : string)
    (env : ProcessEnv) : ProcessEnv * list string :=
  if aiEnabled && bool_decide (llmProvider ≠ "none") then
    let env :=
      {| LLM_PROVIDER := Some llmProvider;
         OPENAI_API_KEY := OPENAI_API_KEY env;
         ANTHROPIC_API_KEY := ANTHROPIC_API_KEY env |} in
    if bool_decide (llmProvider = "openai")
       && Js.truthy_string (OPENAI_API_KEY env)
    then (env, ["OpenAI API key detected"])
    else if bool_decide (llmProvider = "anthropic")
            && Js.truthy_string (ANTHROPIC_API_KEY env)
    then (env, ["Anthropic API key detected"])
    else if bool_decide (llmProvider = "github")
    then (env, ["Using GitHub AI (via token)"])
    else (env, [])
  else (env, []).

Module Registry.

(** The agent classes of [equilateral-agents-open-core/agents]. *)
Inductive AgentClass :=
| CodeAnalyzerAgent
| TestOrchestrationAgent
| SecurityScannerAgent
| DeploymentValidationAgent.

(** [metadata] of the code analyzer. *)
Record Metadata := {
  pr : option nat;
  repo : string
}.

(** An agent as constructed by [registerGitHubAgents]: its class and the
    options object passed to the constructor. *)
Record Agent := {
  class : AgentClass;
  agentId : string;
  enableAI : bool;
  metadata : option Metadata;
  reportFormat : option string
}.

End Registry.

(** [registerGitHubAgents]: the agents passed to
    [orchestrator.registerAgent], in order. Each reads
    [process.env.LLM_PROVIDER !== 'none'] when it is constructed. *)
Definition registerGitHubAgents (env : ProcessEnv) (context : Context)
  : list Registry.Agent :=
  let codeAnalyzer :=
    {| Registry.class := Registry.CodeAnalyzerAgent;
       Registry.agentId := "github-code-analyzer";
       Registry.enableAI := bool_decide (LLM_PROVIDER env ≠ Some "none");
       Registry.metadata :=
         Some {| Registry.pr := pull_request context;
                 Registry.repo := owner context +:+ "/" +:+ repo context |};
       Registry.reportFormat := None |} in
  let testRunner :=
    {| Registry.class := Registry.TestOrchestrationAgent;
       Registry.agentId := "github-test-runner";
       Registry.enableAI := bool_decide (LLM_PROVIDER env ≠ Some "none");
       Registry.metadata := None;
       Registry.reportFormat := None |} in
  let securityScanner :=
    {| Registry.class := Registry.SecurityScannerAgent;
       Registry.agentId := "github-security-scanner";
       Registry.enableAI := bool_decide (LLM_PROVIDER env ≠ Some "none");
       Registry.metadata := None;
       Registry.reportFormat := Some "sarif" |} in
  let deploymentValidator :=
    {| Registry.class := Registry.DeploymentValidationAgent;
       Registry.agentId := "github-deployment-validator";
       Registry.enableAI := bool_decide (LLM_PROVIDER env ≠ Some "none");
       Registry.metadata := None;
       Registry.reportFormat := None |} in
  [codeAnalyzer; testRunner; securityScanner; deploymentValidator].

(** [run] up to the registration: the AI configuration, then
    [registerGitHubAgents] under the environment it leaves. *)
Definition startAgents (aiEnabled : bool) (llmProvider : string)
    (env : ProcessEnv) (context : Context) : list Registry.Agent :=
  registerGitHubAgents (configureAI aiEnabled llmProvider env).1 context.

(** ** Reading a run back *)

(** The requests of [createComment] among the effects, in order. *)
Definition commentsOf (done : list Effect) : list Comments.createComment :=
  omap (λ e, match e with CreateComment r => Some r | _ => None end) done.

(** The requests of [checks.create] among the effects, in order. *)
Definition checksOf (done : list Effect) : list Checks.create :=
  omap (λ e, match e with CreateCheck r => Some r | _ => None end) done.

(** The messages of [core.setFailed] among the effects, in order. *)
Definition failuresOf (done : list Effect) : list string :=
  omap (λ e, match e with SetFailed m => Some m | _ => None end) done.

(** The effects other than failure signals, in order. *)
Definition publishedOf (done : list Effect) : list Effect :=
  omap (λ e, match e with SetFailed _ => None | _ => Some e end) done.

(** The records passed to [core.error], in order. *)
Definition errorsOf (done : list Effect) : list Annotation.t :=
  omap (λ e, match e with CoreError _ a => Some a | _ => None end) done.

(** The records passed to [core.warning], in order. *)
Definition warningsOf (done : list Effect) : list Annotation.t :=
  omap (λ e, match e with CoreWarning _ a => Some a | _ => None end) done.

(** The values given to the output [name], in order. *)
Definition outputsOf (name : string) (done : list Effect) : list string :=
  omap (λ e, match e with
             | SetOutput n v => if bool_decide (n = name) then Some v else None
             | _ => None
             end) done.

(** The payload without its issues, and without its summary. *)
Definition withoutIssues (t : TaskOutcome) : TaskOutcome :=
  {| agentId := agentId t;
     result := (λ r, {| summary := summary r; issues := None |}) <$> result t |}.

Definition withoutSummary (agent : string) (t : TaskOutcome) : TaskOutcome :=
  {| agentId := agent;
     result := (λ r, {| summary := None; issues := issues r |}) <$> result t |}.

(** ** Sample data *)

Definition sqlInjection : Issue :=
  {| severity := Some "critical"; file := Some "a.js"; line := Some 10%Z;
     message := Some "SQL injection"; title := None |}.

Definition unusedVar : Issue :=
  {| severity := Some "warning"; file := Some "b.js"; line := Some 5%Z;
     message := Some "unused var"; title := Some "Lint" |}.

Definition styleNote : Issue :=
  {| severity := Some "info"; file := Some "c.js"; line := None;
     message := Some "prefer const"; title := None |}.

(** An issue whose severity is none of the three the reports know. *)
Definition oddSeverity : Issue :=
  {| severity := Some "error"; file := Some "d.js"; line := Some 7%Z;
     message := Some "broken"; title := None |}.

(** An issue whose file and title are present as empty strings. *)
Definition blankFields : Issue :=
  {| severity := Some "warning"; file := Some ""; line := Some 3%Z;
     message := Some "m"; title := Some "" |}.

Definition analyzerOutcome : TaskOutcome :=
  {| agentId := "github-code-analyzer";
     result := Some {| summary := Some "2 findings";
                       issues := Some [sqlInjection; unusedVar] |} |}.

Definition scannerOutcome : TaskOutcome :=
  {| agentId := "github-security-scanner";
     result := Some {| summary := None; issues := Some [styleNote] |} |}.

(** A payload whose summary is present as the empty string. *)
Definition blankSummaryOutcome : TaskOutcome :=
  {| agentId := "github-test-runner";
     result := Some {| summary := Some ""; issues := None |} |}.

(** An outcome without a payload. *)
Definition failedOutcome : TaskOutcome :=
  {| agentId := "github-test-runner"; result := None |}.

(** An issue on a line beyond the safe integers. *)
Definition farLine : Issue :=
  {| severity := Some "critical"; file := Some "a.js";
     line := Some (10 ^ 21)%Z; message := Some "m"; title := None |}.

Definition sampleInputs : Inputs :=
  {| aiEnabled := true; createPRComment := true; createCheckRun := true;
     failOnErrors := true |}.

Definition sampleContext : Context :=
  {| owner := "octo"; repo := "demo"; sha := "abc123";
     pull_request := Some 7 |}.

Definition sampleExternal : External :=
  {| resultJson := "{}"; resultText := "{}";
     commentCreated := Js.Resolved "1"; checkCreated := Js.Resolved "2";
     stopped := Js.Resolved ();
     errorMessage := "Cannot read properties of undefined" |}.

(** A publisher that rejects the comment. *)
Definition rejectingExternal : External :=
  {| resultJson := "{}"; resultText := "{}";
     commentCreated := Js.Rejected "Bad credentials";
     checkCreated := Js.Resolved "2"; stopped := Js.Resolved ();
     errorMessage := "Cannot read properties of undefined" |}.

(** * Properties *)

(** ** Strings and loops *)

Lemma string_app_cons (x : Ascii.ascii) (a b : string) :
  String x a +:+ b = String x (a +:+ b).
Proof. reflexivity. Qed.

Lemma string_app_nil_l (a : string) : "" +:+ a = a.
Proof. reflexivity. Qed.

Lemma string_app_assoc (a b c : string) : (a +:+ b) +:+ c = a +:+ b +:+ c.
Proof.
  induction a as [|x a IH]; [done|].
  by rewrite !string_app_cons, IH.
Qed.

Lemma string_app_nil_r (a : string) : a +:+ "" = a.
Proof.
  induction a as [|x a IH]; [done|].
  by rewrite string_app_cons, IH.
Qed.

(** A loop that appends one piece per element appends the pieces in order. *)
Lemma fold_left_append {A} (piece : A → string) (l : list A) (acc : string) :
  fold_left (λ acc x, acc +:+ piece x) l acc
  = acc +:+ foldr (λ x s, piece x +:+ s) "" l.
Proof.
  revert acc. induction l as [|x l IH]; intros acc; simpl.
  - by rewrite string_app_nil_r.
  - by rewrite IH, string_app_assoc.
Qed.

Lemma foldr_append_app {A} (piece : A → string) (l1 l2 : list A) :
  foldr (λ x s, piece x +:+ s) "" (l1 ++ l2)
  = foldr (λ x s, piece x +:+ s) "" l1
      +:+ foldr (λ x s, piece x +:+ s) "" l2.
Proof.
  induction l1 as [|x l1 IH]; simpl; [done|].
  by rewrite IH, string_app_assoc.
Qed.

Lemma fold_left_snoc {A B} (f : A → B) (l : list A) (acc : list B) :
  fold_left (λ acc x, acc ++ [f x]) l acc = acc ++ map f l.
Proof.
  revert acc. induction l as [|x l IH]; intros acc; simpl.
  - by rewrite app_nil_r.
  - by rewrite IH, <- app_assoc.
Qed.

(** ** The normalizer *)

Lemma summaryStep_payload text task :
  Spec.carriesPayload task →
  summaryStep text task = Js.Normal (text +:+ Spec.summaryLine task).
Proof.
  intros [r Hr]. unfold summaryStep, Spec.summaryLine. rewrite Hr. simpl.
  destruct (summary r) as [[|c s]|]; simpl;
    by rewrite ?string_app_nil_r.
Qed.

Lemma issuesStep_payload found task :
  Spec.carriesPayload task →
  issuesStep found task = Js.Normal (found ++ Spec.contribution task).
Proof.
  intros [r Hr]. unfold issuesStep, Spec.contribution. rewrite Hr. simpl.
  destruct (issues r); simpl; by rewrite ?app_nil_r.
Qed.

Lemma summary_loop_payload tasks text :
  Forall Spec.carriesPayload tasks →
  Js.forEach summaryStep tasks text
  = Js.Normal (text +:+ Spec.summaryLines tasks).
Proof.
  intros Hall. revert text.
  induction Hall as [|task tasks Htask _ IH]; intros text; simpl.
  - by rewrite string_app_nil_r.
  - rewrite summaryStep_payload by done. simpl.
    rewrite IH. by rewrite string_app_assoc.
Qed.

Lemma issues_loop_payload tasks found :
  Forall Spec.carriesPayload tasks →
  Js.forEach issuesStep tasks found
  = Js.Normal (found ++ Spec.aggregated tasks).
Proof.
  intros Hall. revert found.
  induction Hall as [|task tasks Htask _ IH]; intros found; simpl.
  - by rewrite app_nil_r.
  - rewrite issuesStep_payload by done. simpl.
    rewrite IH. unfold Spec.aggregated. simpl. by rewrite app_assoc.
Qed.

Lemma summary_loop_throws tasks text :
  Exists (λ t, result t = None) tasks →
  Js.forEach summaryStep tasks text = Js.ThrowTypeError.
Proof.
  intros Hex. revert text.
  induction Hex as [task tasks Hnone | task tasks _ IH]; intros text; simpl.
  - unfold summaryStep. by rewrite Hnone.
  - destruct (summaryStep text task); simpl; [apply IH | done].
Qed.

Lemma issues_loop_throws tasks found :
  Exists (λ t, result t = None) tasks →
  Js.forEach issuesStep tasks found = Js.ThrowTypeError.
Proof.
  intros Hex. revert found.
  induction Hex as [task tasks Hnone | task tasks _ IH]; intros found; simpl.
  - unfold issuesStep. by rewrite Hnone.
  - destruct (issuesStep found task); simpl; [apply IH | done].
Qed.

(** [generateSummary] on outcomes that all carry a payload. *)
Lemma generateSummary_payload res :
  Forall Spec.carriesPayload (Js.or_empty (results res)) →
  generateSummary res
  = Js.Normal
      (Spec.summaryHeader (length (Js.or_empty (results res)))
         +:+ Spec.summaryLines (Js.or_empty (results res))).
Proof.
  intros Hall. unfold generateSummary. by apply summary_loop_payload.
Qed.

(** [extractIssues] on outcomes that all carry a payload. *)
Lemma extractIssues_payload res :
  Forall Spec.carriesPayload (Js.or_empty (results res)) →
  extractIssues res = Js.Normal (Spec.aggregated (Js.or_empty (results res))).
Proof.
  intros Hall. unfold extractIssues. by rewrite issues_loop_payload.
Qed.

(** Both throw as soon as one outcome has no payload. *)
Lemma generateSummary_throws res :
  Exists (λ t, result t = None) (Js.or_empty (results res)) →
  generateSummary res = Js.ThrowTypeError.
Proof. intros Hex. unfold generateSummary. by apply summary_loop_throws. Qed.

Lemma extractIssues_throws res :
  Exists (λ t, result t = None) (Js.or_empty (results res)) →
  extractIssues res = Js.ThrowTypeError.
Proof. intros Hex. unfold extractIssues. by apply issues_loop_throws. Qed.

(** ** The coordinator *)

Lemma run_throws inputs context ext res :
  generateSummary res = Js.ThrowTypeError →
  run inputs context ext res
  = [ SetFailed ("Action failed: " +:+ errorMessage ext) ].
Proof. intros H. unfold run. by rewrite H. Qed.

Lemma run_reports inputs context ext res text found :
  generateSummary res = Js.Normal text →
  extractIssues res = Js.Normal found →
  run inputs context ext res = report inputs context ext text found.
Proof. intros Hs Hi. unfold run. rewrite Hs. simpl. by rewrite Hi. Qed.

(** ** Claims about the normalizer *)

(** C5, as stated, fails. The summary claimed for a sequence has a line for
    every payload with a [summary] field. The code writes no line for a
    summary that is the empty string, and returns no summary at all (it
    throws) when an outcome of the sequence has no payload. *)
Lemma summary_claim_refuted :
  generateSummary {| results := Some [blankSummaryOutcome] |}
    = Js.Normal ("Analyzed 1 workflow tasks" +:+ Js.nl)
  ∧ generateSummary {| results := Some [blankSummaryOutcome] |}
    ≠ Js.Normal (Spec.summaryClaimed [blankSummaryOutcome])
  ∧ generateSummary {| results := Some [analyzerOutcome; failedOutcome] |}
    = Js.ThrowTypeError
  ∧ generateSummary {| results := Some [analyzerOutcome; failedOutcome] |}
    ≠ Js.Normal (Spec.summaryClaimed [analyzerOutcome; failedOutcome]).
Proof. repeat split; try reflexivity; vm_compute; discriminate. Qed.

(** C5, amended: for every ordered sequence of N task outcomes that each
    carry a result payload, the summary is the header line
    "Analyzed N workflow tasks" followed, for each outcome whose summary is
    present and not empty, by a line "<agentId>: <summary>", in outcome
    order; an outcome whose summary is missing (or empty) or whose issues
    field is missing adds nothing and is not an error. *)
Theorem summary_of_payload_outcomes (tasks : list TaskOutcome) :
  Forall Spec.carriesPayload tasks →
  generateSummary {| results := Some tasks |}
  = Js.Normal
      (("Analyzed " +:+ Js.string_of_nat (length tasks)
          +:+ " workflow tasks" +:+ Js.nl)
         +:+ Spec.summaryLines tasks).
Proof. intros Hall. by rewrite generateSummary_payload. Qed.

Lemma summary_of_payload_outcomes_witness :
  Forall Spec.carriesPayload
    [analyzerOutcome; scannerOutcome; blankSummaryOutcome]
  ∧ generateSummary
      {| results :=
           Some [analyzerOutcome; scannerOutcome; blankSummaryOutcome] |}
    = Js.Normal
        ("Analyzed 3 workflow tasks" +:+ Js.nl +:+ Js.nl
           +:+ "github-code-analyzer: 2 findings").
Proof.
  assert (H : Forall Spec.carriesPayload
                [analyzerOutcome; scannerOutcome; blankSummaryOutcome])
    by (repeat constructor; eexists; reflexivity).
  split; [exact H|].
  rewrite (summary_of_payload_outcomes _ H). reflexivity.
Defined.

(** C6, as stated, fails: with an outcome that has no payload in the
    sequence, no issue list comes back, not even the issues of the tasks
    before it. *)
Lemma order_claim_refuted :
  Spec.aggregated [analyzerOutcome; failedOutcome] = [sqlInjection; unusedVar]
  ∧ extractIssues {| results := Some [analyzerOutcome; failedOutcome] |}
    = Js.ThrowTypeError
  ∧ extractIssues {| results := Some [analyzerOutcome; failedOutcome] |}
    ≠ Js.Normal (Spec.aggregated [analyzerOutcome; failedOutcome]).
Proof. repeat split; try reflexivity; vm_compute; discriminate. Qed.

(** C6, amended: for every ordered sequence of task outcomes that each carry
    a result payload, the aggregated issue list is the concatenation of the
    per-task issue lists in task order, neither re-sorted nor
    deduplicated. *)
Theorem issues_in_task_order (tasks : list TaskOutcome) :
  Forall Spec.carriesPayload tasks →
  extractIssues {| results := Some tasks |}
  = Js.Normal (concat (map Spec.contribution tasks)).
Proof. intros Hall. by rewrite extractIssues_payload. Qed.

Lemma issues_in_task_order_witness :
  Forall Spec.carriesPayload [analyzerOutcome; scannerOutcome]
  ∧ extractIssues {| results := Some [analyzerOutcome; scannerOutcome] |}
    = Js.Normal [sqlInjection; unusedVar; styleNote].
Proof.
  assert (H : Forall Spec.carriesPayload [analyzerOutcome; scannerOutcome])
    by (repeat constructor; eexists; reflexivity).
  split; [exact H|].
  rewrite (issues_in_task_order _ H). reflexivity.
Defined.

(** C9, as stated, fails: one outcome without a payload makes both
    normalizer functions throw, and [run] ends in its [catch] with the
    failure signal, having published nothing for the task that did
    succeed. *)
Lemma failed_outcome_aborts_run :
  generateSummary {| results := Some [analyzerOutcome; failedOutcome] |}
    = Js.ThrowTypeError
  ∧ extractIssues {| results := Some [analyzerOutcome; failedOutcome] |}
    = Js.ThrowTypeError
  ∧ run sampleInputs sampleContext sampleExternal
      {| results := Some [analyzerOutcome; failedOutcome] |}
    = [ SetFailed "Action failed: Cannot read properties of undefined" ].
Proof. repeat split; reflexivity. Qed.

(** C9, amended: an outcome whose payload is present but has neither a
    summary nor issues does not abort the run: it is counted in the header,
    adds no summary line and no issue, and the other tasks are aggregated as
    without it. An outcome with no payload at all is not tolerated: the
    normalizer throws on it and [run] ends with the signal
    "Action failed: ..." and no report. *)
Theorem silent_outcome_and_missing_payload
    (before after : list TaskOutcome) (agent : string) :
  Forall Spec.carriesPayload before →
  Forall Spec.carriesPayload after →
  let silent :=
    {| agentId := agent;
       result := Some {| summary := None; issues := None |} |} in
  let missing := {| agentId := agent; result := None |} in
  generateSummary {| results := Some (before ++ silent :: after) |}
    = Js.Normal
        (Spec.summaryHeader (length (before ++ silent :: after))
           +:+ Spec.summaryLines (before ++ after))
  ∧ extractIssues {| results := Some (before ++ silent :: after) |}
    = extractIssues {| results := Some (before ++ after) |}
  ∧ extractIssues {| results := Some (before ++ after) |}
    = Js.Normal (Spec.aggregated (before ++ after))
  ∧ generateSummary {| results := Some (before ++ missing :: after) |}
    = Js.ThrowTypeError
  ∧ extractIssues {| results := Some (before ++ missing :: after) |}
    = Js.ThrowTypeError
  ∧ ∀ inputs context ext,
      run inputs context ext {| results := Some (before ++ missing :: after) |}
      = [ SetFailed ("Action failed: " +:+ errorMessage ext) ].
Proof.
  intros Hb Ha silent missing.
  assert (Hs : Spec.carriesPayload silent) by (eexists; reflexivity).
  assert (Hall : Forall Spec.carriesPayload (before ++ silent :: after))
    by (apply Forall_app; split; [done | by constructor]).
  assert (Hrest : Forall Spec.carriesPayload (before ++ after))
    by (apply Forall_app; by split).
  assert (Hex : Exists (λ t, result t = None) (before ++ missing :: after))
    by (apply Exists_app; right; by constructor).
  split; [|split; [|split; [|split; [|split]]]].
  - rewrite generateSummary_payload by done. simpl. do 2 f_equal.
    unfold Spec.summaryLines. by rewrite !foldr_append_app.
  - rewrite !extractIssues_payload by done. simpl. f_equal.
    unfold Spec.aggregated. by rewrite !map_app, !concat_app.
  - by rewrite extractIssues_payload.
  - by apply generateSummary_throws.
  - by apply extractIssues_throws.
  - intros inputs context ext. apply run_throws.
    by apply generateSummary_throws.
Qed.

Lemma silent_outcome_and_missing_payload_witness :
  generateSummary
    {| results :=
         Some [analyzerOutcome;
               {| agentId := "github-test-runner";
                  result := Some {| summary := None; issues := None |} |};
               scannerOutcome] |}
  = Js.Normal
      (Spec.summaryHeader 3
         +:+ Spec.summaryLines [analyzerOutcome; scannerOutcome]).
Proof.
  refine (proj1 (silent_outcome_and_missing_payload
                   [analyzerOutcome] [scannerOutcome] "github-test-runner"
                   _ _));
    repeat constructor; eexists; reflexivity.
Defined.

(** C10: for every workflow result object whose [results] field is absent,
    summary generation returns exactly "Analyzed 0 workflow tasks\n", issue
    extraction returns the empty list, and [run] goes on to report a
    workflow of zero tasks instead of failing. *)
Theorem absent_results_is_zero_tasks (res : WorkflowResult) :
  results res = None →
  generateSummary res = Js.Normal ("Analyzed 0 workflow tasks" +:+ Js.nl)
  ∧ extractIssues res = Js.Normal []
  ∧ ∀ inputs context ext,
      run inputs context ext res
      = report inputs context ext ("Analyzed 0 workflow tasks" +:+ Js.nl) [].
Proof.
  intros Habsent.
  assert (Hs : generateSummary res
               = Js.Normal ("Analyzed 0 workflow tasks" +:+ Js.nl))
    by (unfold generateSummary; rewrite Habsent; reflexivity).
  assert (Hi : extractIssues res = Js.Normal [])
    by (unfold extractIssues; rewrite Habsent; reflexivity).
  split; [done|]. split; [done|].
  intros inputs context ext. by apply run_reports.
Qed.

Lemma absent_results_is_zero_tasks_witness :
  generateSummary {| results := None |}
    = Js.Normal ("Analyzed 0 workflow tasks" +:+ Js.nl)
  ∧ extractIssues {| results := None |} = Js.Normal [].
Proof.
  destruct (absent_results_is_zero_tasks {| results := None |} eq_refl)
    as (Hs & Hi & _).
  split; [exact Hs | exact Hi].
Defined.

(** ** The severity groups *)

(** No issue has two severities. *)
Lemma hasSeverity_functional s1 s2 i :
  hasSeverity s1 i → hasSeverity s2 i → s1 = s2.
Proof. unfold hasSeverity. congruence. Qed.

(** The three groups, one after the other, hold exactly the issues of a
    recognized severity, each as often as the list has it. *)
Lemma groups_permutation (l : list Issue) :
  filter (hasSeverity "critical") l ++ filter (hasSeverity "warning") l
    ++ filter (hasSeverity "info") l
  ≡ₚ filter Spec.recognized l.
Proof.
  induction l as [|i l IH]; [done|].
  rewrite !filter_cons.
  destruct (decide (hasSeverity "critical" i)) as [Hc|Hc];
  destruct (decide (hasSeverity "warning" i)) as [Hw|Hw];
  destruct (decide (hasSeverity "info" i)) as [Hi|Hi];
  try (by pose proof (hasSeverity_functional _ _ _ Hc Hw));
  try (by pose proof (hasSeverity_functional _ _ _ Hc Hi));
  try (by pose proof (hasSeverity_functional _ _ _ Hw Hi)).
  - rewrite decide_True by (left; done). simpl. by constructor.
  - rewrite decide_True by (right; left; done). simpl.
    rewrite <- Permutation_middle. by constructor.
  - rewrite decide_True by (right; right; done).
    rewrite app_assoc, <- Permutation_middle, <- app_assoc. by constructor.
  - rewrite decide_False by (intros [?|[?|?]]; done). done.
Qed.

Lemma filter_all {A} (P : A → Prop) `{!∀ x, Decision (P x)} (l : list A) :
  Forall P l → filter P l = l.
Proof.
  induction 1 as [|x l Hx _ IH]; [done|].
  by rewrite filter_cons_True, IH.
Qed.

Lemma filter_length_eq {A} (P : A → Prop) `{!∀ x, Decision (P x)}
    (l : list A) :
  length (filter P l) = length l → Forall P l.
Proof.
  induction l as [|x l IH]; [constructor|].
  rewrite filter_cons. destruct (decide (P x)) as [Hx|Hx]; simpl.
  - intros Hlen. constructor; [done|]. apply IH. lia.
  - intros Hlen. pose proof (length_filter P l). lia.
Qed.

(** ** Claims about the classification *)

(** An issue of severity "error" is in none of the three groups, in
    particular not in the info group, and the sizes of the groups sum to 0
    for a list of length 1. *)
Lemma unrecognized_severity_dropped :
  (oddSeverity ∉ filter (hasSeverity "info") [oddSeverity])
  ∧ length (filter (hasSeverity "critical") [oddSeverity])
      + length (filter (hasSeverity "warning") [oddSeverity])
      + length (filter (hasSeverity "info") [oddSeverity])
    ≠ length [oddSeverity].
Proof.
  split.
  - rewrite list_elem_of_filter. intros [H _]. discriminate H.
  - vm_compute. discriminate.
Qed.

(** The three groups partition the issues whose severity is one of
    critical, warning, info: each such issue is in exactly the group of its
    severity, and an issue with any other severity, or with none, is in no
    group. The sizes of the groups sum to the number of issues with a
    recognized severity, which is the length of the list exactly when every
    issue of the list has one. *)
Lemma severity_groups_partition (l : list Issue) :
  let critical := filter (hasSeverity "critical") l in
  let warnings := filter (hasSeverity "warning") l in
  let info := filter (hasSeverity "info") l in
  critical ++ warnings ++ info ≡ₚ filter Spec.recognized l
  ∧ length critical + length warnings + length info
    = length (filter Spec.recognized l)
  ∧ (length critical + length warnings + length info = length l
     ↔ Forall Spec.recognized l)
  ∧ ∀ i, ¬ Spec.recognized i → (i ∉ critical) ∧ (i ∉ warnings) ∧ (i ∉ info).
Proof.
  intros critical warnings info.
  pose proof (groups_permutation l) as Hperm.
  assert (Hlen : length critical + length warnings + length info
                 = length (filter Spec.recognized l)).
  { rewrite <- Hperm, !length_app. subst critical warnings info. lia. }
  split; [exact Hperm|]. split; [exact Hlen|]. split.
  - rewrite Hlen. split.
    + apply filter_length_eq.
    + intros Hall. by rewrite filter_all.
  - intros i Hi. subst critical warnings info.
    rewrite !list_elem_of_filter. unfold Spec.recognized in Hi.
    repeat split; intros [? _]; apply Hi; auto.
Qed.

(** ** The comment renderer *)

(** A safe integer prints as its decimal digits. *)
Lemma string_of_Z_safe (z : Z) :
  (- 9007199254740991 ≤ z ≤ 9007199254740991)%Z →
  Js.string_of_Z z = NilZero.string_of_int (Z.to_int z).
Proof.
  intros Hsafe. unfold Js.string_of_Z.
  by rewrite (proj2 (Z.leb_le _ _)) by lia.
Qed.

Lemma lineNumber_prints (z : Z) : Spec.lineNumber z = Js.string_of_Z z.
Proof.
  unfold Spec.lineNumber.
  destruct (decide (- 9007199254740991 ≤ z ≤ 9007199254740991)%Z);
    [by rewrite string_of_Z_safe | done].
Qed.

(** The item the code appends for an issue is the item as specified. *)
Lemma issueLine_item (i : Issue) : issueLine i = Spec.item i.
Proof.
  unfold issueLine, Spec.item, Js.template, Js.template_number_or.
  destruct (file i), (line i) as [z|], (message i);
    try (destruct (decide (z = 0%Z)) as [->|Hz];
         [|rewrite (proj2 (Z.eqb_neq z 0) Hz), lineNumber_prints]);
    reflexivity.
Qed.

Lemma listing_items (group : list Issue) :
  foldr (λ i s, issueLine i +:+ s) "" group = Spec.listing group.
Proof.
  unfold Spec.listing. induction group as [|i group IH]; [done|].
  simpl. by rewrite IH, issueLine_item.
Qed.

Lemma appendSection_subsection heading group body :
  appendSection heading group body
  = body +:+ Spec.subsection heading group.
Proof.
  unfold appendSection. destruct group as [|i group].
  - simpl. by rewrite string_app_nil_r.
  - rewrite bool_decide_true by (simpl; lia).
    rewrite (fold_left_append issueLine), listing_items.
    unfold Spec.subsection.
    by rewrite !string_app_assoc.
Qed.

Lemma subsection_nonempty heading group :
  group ≠ [] →
  Spec.subsection heading group
  = "#### " +:+ heading +:+ " (" +:+ Js.string_of_nat (length group)
      +:+ ")" +:+ Js.nl +:+ Spec.listing group +:+ Js.nl.
Proof. by destruct group. Qed.

Lemma listing_split before i after :
  Spec.listing (before ++ i :: after)
  = Spec.listing before +:+ Spec.item i +:+ Spec.listing after.
Proof. unfold Spec.listing. by rewrite foldr_append_app. Qed.

Lemma commentBody_document summary issues aiEnabled :
  commentBody summary issues aiEnabled
  = Spec.document summary issues aiEnabled.
Proof.
  unfold commentBody, Spec.document.
  destruct issues as [|i issues].
  - rewrite bool_decide_false by (simpl; lia).
    unfold Spec.header, Spec.noIssues, Spec.footer.
    destruct aiEnabled; by rewrite !string_app_assoc.
  - rewrite bool_decide_true by (simpl; lia).
    rewrite !appendSection_subsection.
    unfold Spec.header, Spec.issuesFound, Spec.subsections, Spec.footer.
    destruct aiEnabled; by rewrite !string_app_assoc.
Qed.


(** The comment for one warning has a "Warnings (1)" section with the item
    of the issue, and no critical section. *)
Example comment_one_warning :
  commentBody "Analyzed 1 workflow tasks" [unusedVar] false
  = "## 🤖 EquilateralAgents Analysis" +:+ Js.nl +:+ Js.nl
      +:+ "### Summary" +:+ Js.nl
      +:+ "Analyzed 1 workflow tasks" +:+ Js.nl +:+ Js.nl
      +:+ "### Issues Found (1)" +:+ Js.nl +:+ Js.nl
      +:+ "#### 🟡 Warnings (1)" +:+ Js.nl
      +:+ "- **b.js:5** - unused var" +:+ Js.nl +:+ Js.nl +:+ Js.nl
      +:+ "---" +:+ Js.nl
      +:+ "*Powered by [EquilateralAgents](https://github.com/marketplace/equilateral-agents)*".
Proof. vm_compute. reflexivity. Qed.

(** An issue without a line is listed with a question mark. *)
Example comment_line_fallback :
  issueLine styleNote = "- **c.js:?** - prefer const" +:+ Js.nl.
Proof. vm_compute. reflexivity. Qed.

(** ** The annotation loop *)

Lemma annotate_annotation (i : Issue) :
  annotate i
  = if decide (hasSeverity "critical" i)
    then CoreError (message i) (Spec.annotation i)
    else CoreWarning (message i) (Spec.annotation i).
Proof.
  unfold annotate, Spec.annotation, hasSeverity.
  destruct i as [sev f ln msg ttl]; simpl.
  destruct (decide (sev = Some "critical")) as [Hc|Hc].
  - rewrite !(bool_decide_true _ Hc). simpl.
    destruct f as [[|? ?]|], ln as [z|], ttl as [[|? ?]|]; simpl;
      try (destruct (decide (z = 0%Z)) as [->|Hz];
           [|rewrite (proj2 (Z.eqb_neq z 0) Hz)]);
      reflexivity.
  - rewrite !(bool_decide_false _ Hc). simpl.
    destruct f as [[|? ?]|], ln as [z|], ttl as [[|? ?]|]; simpl;
      try (destruct (decide (z = 0%Z)) as [->|Hz];
           [|rewrite (proj2 (Z.eqb_neq z 0) Hz)]);
      reflexivity.
Qed.

Lemma createAnnotations_map issues done :
  createAnnotations issues done = done ++ map annotate issues.
Proof. unfold createAnnotations. apply fold_left_snoc. Qed.

(** ** Claims about the annotations *)

(** C8, as stated, fails: for an issue whose file and title are present but
    empty, the path is "unknown" and the title "Issue found", not the
    issue's own (empty) file and title. *)
Lemma empty_file_and_title_defaulted :
  file blankFields = Some "" ∧ title blankFields = Some ""
  ∧ createAnnotations [blankFields] []
    = [ CoreWarning (Some "m")
          {| Annotation.path := "unknown"; Annotation.start_line := 3;
             Annotation.end_line := 3;
             Annotation.annotation_level := "warning";
             Annotation.message := Some "m";
             Annotation.title := "Issue found" |} ]
  ∧ createAnnotations [blankFields] []
    ≠ [ CoreWarning (Some "m") (Spec.annotationClaimed blankFields) ].
Proof. repeat split; try reflexivity. vm_compute. discriminate. Qed.

(** C8, amended: for every issue list the annotation loop makes exactly one
    call per issue, in issue order, with no deduplication and no merging of
    issues on the same line. The record of an issue has: as path the issue's
    file, or "unknown" when the file is absent or empty; as start and end
    line the issue's line, or 1 when the line is absent or zero; level
    "failure" for critical severity and "warning" otherwise; the issue's
    message; as title the issue's title, or "Issue found" when the title is
    absent or empty. Critical issues go to [core.error], all others to
    [core.warning]. *)
Theorem one_annotation_per_issue (issues : list Issue) :
  createAnnotations issues []
  = map (λ i,
           let record :=
             {| Annotation.path :=
                  match file i with
                  | Some (String c s) => String c s
                  | _ => "unknown"
                  end;
                Annotation.start_line :=
                  match line i with
                  | Some z => if decide (z = 0%Z) then 1%Z else z
                  | None => 1%Z
                  end;
                Annotation.end_line :=
                  match line i with
                  | Some z => if decide (z = 0%Z) then 1%Z else z
                  | None => 1%Z
                  end;
                Annotation.annotation_level :=
                  if decide (severity i = Some "critical") then "failure"
                  else "warning";
                Annotation.message := message i;
                Annotation.title :=
                  match title i with
                  | Some (String c s) => String c s
                  | _ => "Issue found"
                  end |} in
           if decide (severity i = Some "critical")
           then CoreError (message i) record
           else CoreWarning (message i) record)
      issues
  ∧ length (createAnnotations issues []) = length issues.
Proof.
  rewrite createAnnotations_map. simpl. split.
  - apply map_ext. intros i. apply annotate_annotation.
  - by rewrite length_map.
Qed.

(** Two issues on the same line of the same file keep their two
    annotations. *)
Example annotations_not_merged :
  length (createAnnotations [unusedVar; unusedVar; styleNote] []) = 3
  ∧ (annotationOf <$> createAnnotations [styleNote] [])
    = [ Some {| Annotation.path := "c.js"; Annotation.start_line := 1;
                Annotation.end_line := 1;
                Annotation.annotation_level := "warning";
                Annotation.message := Some "prefer const";
                Annotation.title := "Issue found" |} ].
Proof. split; reflexivity. Qed.

(** ** Claims about the check run *)

(** C3: for every issue list the check run concludes "failure" exactly when
    the number of critical issues is positive and "success" otherwise; its
    title is "Found <criticalCount> critical issues" in the first case and
    "All checks passed" in the second. Both are functions of the critical
    count alone: two reports over lists with the same number of critical
    issues agree on them, whatever their warnings, infos, summary, context
    and detail text. *)
Theorem checkrun_follows_critical_count
    (context : Context) (summary : string) (issues : list Issue)
    (detail : string) :
  let criticalCount := length (filter (hasSeverity "critical") issues) in
  let check := createCheckRunReport context summary issues detail in
  (Checks.conclusion check = "failure" ↔ 0 < criticalCount)
  ∧ (Checks.conclusion check = "success" ↔ criticalCount = 0)
  ∧ Checks.conclusion check
    = (if decide (0 < criticalCount) then "failure" else "success")
  ∧ Checks.title (Checks.output_ check)
    = (if decide (0 < criticalCount)
       then "Found " +:+ Js.string_of_nat criticalCount +:+ " critical issues"
       else "All checks passed")
  ∧ ∀ context' summary' issues' detail',
      length (filter (hasSeverity "critical") issues') = criticalCount →
      let check' := createCheckRunReport context' summary' issues' detail' in
      Checks.conclusion check' = Checks.conclusion check
      ∧ Checks.title (Checks.output_ check')
        = Checks.title (Checks.output_ check).
Proof.
  intros criticalCount check. subst check. unfold createCheckRunReport.
  fold criticalCount. simpl.
  destruct (decide (0 < criticalCount)) as [Hpos|Hzero].
  - rewrite !(bool_decide_true _ Hpos).
    split; [by split|]. split; [split; [done|lia]|].
    split; [done|]. split; [done|].
    intros context' summary' issues' detail' Hsame. simpl.
    by rewrite Hsame, !(bool_decide_true _ Hpos).
  - rewrite !(bool_decide_false _ Hzero).
    split; [split; [done|lia]|]. split; [split; [lia|done]|].
    split; [done|]. split; [done|].
    intros context' summary' issues' detail' Hsame. simpl.
    by rewrite Hsame, !(bool_decide_false _ Hzero).
Qed.

(** One critical issue: conclusion "failure", title "Found 1 critical
    issues"; warnings and infos alone: "success", "All checks passed". *)
Example checkrun_samples :
  Checks.conclusion
    (createCheckRunReport sampleContext "s" [sqlInjection] "{}") = "failure"
  ∧ Checks.title (Checks.output_
      (createCheckRunReport sampleContext "s" [sqlInjection] "{}"))
    = "Found 1 critical issues"
  ∧ Checks.conclusion
      (createCheckRunReport sampleContext "s"
         [unusedVar; styleNote; oddSeverity] "{}") = "success"
  ∧ Checks.title (Checks.output_
      (createCheckRunReport sampleContext "s"
         [unusedVar; styleNote; oddSeverity] "{}"))
    = "All checks passed".
Proof. repeat split; reflexivity. Qed.

(** ** Claims across the three channels *)

(** C2: for every issue list, every critical issue (the issues that make the
    check-run conclusion "failure") has its item,
    "- **<file>:<line or ?>** - <message>", in the critical section of the
    pull-request comment, at its place in the critical group, and gets an
    annotation whose level is "failure", issued through [core.error]. *)
Theorem critical_issue_on_every_channel
    (context : Context) (prNumber : nat) (summary : string)
    (issues : list Issue) (aiEnabled : bool) (detail : string) (i : Issue) :
  i ∈ issues →
  hasSeverity "critical" i →
  let critical := filter (hasSeverity "critical") issues in
  Checks.conclusion (createCheckRunReport context summary issues detail)
    = "failure"
  ∧ (∃ before after,
       critical = before ++ i :: after
       ∧ Comments.body
           (createPullRequestComment context prNumber summary issues
              aiEnabled)
         = (Spec.header +:+ summary +:+ Js.nl
              +:+ Spec.issuesFound (length issues))
           +:+ ("#### 🔴 Critical (" +:+ Js.string_of_nat (length critical)
                  +:+ ")" +:+ Js.nl
                  +:+ (Spec.listing before +:+ Spec.item i
                         +:+ Spec.listing after)
                  +:+ Js.nl)
           +:+ (Spec.subsection "🟡 Warnings"
                  (filter (hasSeverity "warning") issues)
                  +:+ Spec.subsection "ℹ️ Info"
                        (filter (hasSeverity "info") issues)
                  +:+ Spec.footer aiEnabled))
  ∧ ∃ record,
      CoreError (message i) record ∈ createAnnotations issues []
      ∧ annotate i = CoreError (message i) record
      ∧ Annotation.annotation_level record = "failure".
Proof.
  intros Hin Hcrit critical.
  assert (Hmem : i ∈ critical)
    by (subst critical; by apply list_elem_of_filter).
  split; [|split].
  - unfold createCheckRunReport. simpl. fold critical.
    rewrite bool_decide_true; [done|].
    destruct critical; [by apply elem_of_nil in Hmem | simpl; lia].
  - destruct (list_elem_of_split _ _ Hmem) as (before & after & Hsplit).
    exists before, after. split; [done|]. simpl.
    rewrite commentBody_document. unfold Spec.document.
    destruct issues as [|j issues]; [by apply elem_of_nil in Hin|].
    unfold Spec.subsections. fold critical.
    assert (Hsub : Spec.subsection "🔴 Critical" critical
                   = "#### 🔴 Critical ("
                       +:+ Js.string_of_nat (length critical)
                       +:+ ")" +:+ Js.nl
                       +:+ (Spec.listing before +:+ Spec.item i
                              +:+ Spec.listing after)
                       +:+ Js.nl).
    { rewrite subsection_nonempty
        by (rewrite Hsplit; by destruct before).
      rewrite <- listing_split, <- Hsplit. reflexivity. }
    rewrite Hsub. by rewrite !string_app_assoc.
  - exists (Spec.annotation i).
    assert (Hann : annotate i = CoreError (message i) (Spec.annotation i))
      by (rewrite annotate_annotation; by rewrite decide_True).
    split; [|split].
    + rewrite createAnnotations_map, <- Hann. simpl.
      by apply list_elem_of_fmap_2.
    + done.
    + unfold Spec.annotation. simpl. by rewrite decide_True.
Qed.

Lemma critical_issue_on_every_channel_witness :
  Checks.conclusion
    (createCheckRunReport sampleContext "s" [unusedVar; sqlInjection] "{}")
  = "failure".
Proof.
  refine (proj1 (critical_issue_on_every_channel sampleContext 7 "s"
                   [unusedVar; sqlInjection] true "{}" sqlInjection _ _)).
  - apply list_elem_of_further, list_elem_of_here.
  - reflexivity.
Defined.

(** ** The workflow table *)

(** The four built-in keys resolve to their task lists, in order. *)
Lemma getWorkflowDefinition_builtin :
  Agents.getWorkflowDefinition "code-review"
    = Js.Own {| Agents.tasks := [
        {| Agents.agentId := "github-code-analyzer";
           Agents.taskType := "analyze" |};
        {| Agents.agentId := "github-security-scanner";
           Agents.taskType := "scan" |} ] |}
  ∧ Agents.getWorkflowDefinition "full-analysis"
    = Js.Own {| Agents.tasks := [
        {| Agents.agentId := "github-code-analyzer";
           Agents.taskType := "analyze" |};
        {| Agents.agentId := "github-security-scanner";
           Agents.taskType := "scan" |};
        {| Agents.agentId := "github-test-runner";
           Agents.taskType := "test" |} ] |}
  ∧ Agents.getWorkflowDefinition "pre-deploy"
    = Js.Own {| Agents.tasks := [
        {| Agents.agentId := "github-test-runner";
           Agents.taskType := "test" |};
        {| Agents.agentId := "github-security-scanner";
           Agents.taskType := "scan" |};
        {| Agents.agentId := "github-deployment-validator";
           Agents.taskType := "validate" |} ] |}
  ∧ Agents.getWorkflowDefinition "security-scan"
    = Js.Own {| Agents.tasks := [
        {| Agents.agentId := "github-security-scanner";
           Agents.taskType := "security_scan" |} ] |}.
Proof. repeat split; vm_compute; reflexivity. Qed.

(** The table has these four keys and no other. *)
Lemma workflows_keys (key : string) :
  is_Some (Agents.workflows !! key)
  ↔ key ∈ ["code-review"; "full-analysis"; "pre-deploy"; "security-scan"].
Proof.
  unfold Agents.workflows.
  rewrite !lookup_insert_is_Some, lookup_empty, is_Some_alt.
  rewrite !elem_of_cons, elem_of_nil.
  destruct (decide ("code-review" = key));
    destruct (decide ("full-analysis" = key));
    destruct (decide ("pre-deploy" = key));
    destruct (decide ("security-scan" = key));
    intuition congruence.
Qed.

(** A key that is neither built in nor a name of [Object.prototype]
    resolves to the empty task list. *)
Lemma getWorkflowDefinition_unknown (key : string) :
  key ∉ ["code-review"; "full-analysis"; "pre-deploy"; "security-scan"] →
  key ∉ Js.Object_prototype →
  Agents.getWorkflowDefinition key = Js.Own {| Agents.tasks := [] |}.
Proof.
  intros Hkey Hproto.
  assert (Hnone : Agents.workflows !! key = None).
  { apply eq_None_not_Some. by rewrite workflows_keys. }
  unfold Agents.getWorkflowDefinition, Js.get. rewrite Hnone.
  by rewrite bool_decide_false.
Qed.

(** A name of [Object.prototype] resolves to the inherited member. *)
Lemma getWorkflowDefinition_inherited (key : string) :
  key ∈ Js.Object_prototype →
  Agents.getWorkflowDefinition key = Js.Inherited key.
Proof.
  intros Hproto.
  assert (Hall : Forall (λ k, Agents.workflows !! k = None)
                   Js.Object_prototype)
    by (apply (bool_decide_unpack _); vm_compute; exact I).
  assert (Hnone : Agents.workflows !! key = None)
    by (by apply (proj1 (Forall_forall _ _) Hall)).
  unfold Agents.getWorkflowDefinition, Js.get. rewrite Hnone.
  by rewrite bool_decide_true.
Qed.

(** C4, where the code departs from it: the keys "constructor", "toString"
    and "__proto__" are none of the four built-in keys, yet the lookup finds
    them on the prototype of the table, the fallback is not taken, and what
    comes back is the inherited member, not the empty workflow. A key such
    as "unknown-type" does resolve to the empty workflow. *)
Theorem inherited_key_skips_fallback :
  Agents.workflows !! "constructor" = None
  ∧ Agents.getWorkflowDefinition "constructor" = Js.Inherited "constructor"
  ∧ Agents.getWorkflowDefinition "constructor"
    ≠ Js.Own {| Agents.tasks := [] |}
  ∧ Agents.getWorkflowDefinition "toString" = Js.Inherited "toString"
  ∧ Agents.getWorkflowDefinition "__proto__" = Js.Inherited "__proto__"
  ∧ Agents.getWorkflowDefinition "unknown-type"
    = Js.Own {| Agents.tasks := [] |}.
Proof.
  split; [by vm_compute|].
  split; [by vm_compute|].
  split; [vm_compute; discriminate|].
  repeat split; by vm_compute.
Qed.

(** * Further properties of the code *)

(** ** The normalizer on any sequence *)

Lemma payload_or_missing (tasks : list TaskOutcome) :
  Forall Spec.carriesPayload tasks ∨ Exists (λ t, result t = None) tasks.
Proof.
  destruct (decide (Forall Spec.carriesPayload tasks)) as [Hall|Hnot];
    [by left | right].
  apply not_Forall_Exists in Hnot; [|apply _].
  eapply Exists_impl; [exact Hnot|].
  intros t Ht. by apply eq_None_not_Some.
Qed.

Lemma payload_excludes_missing (tasks : list TaskOutcome) :
  Forall Spec.carriesPayload tasks →
  ¬ Exists (λ t, result t = None) tasks.
Proof.
  intros Hall Hex. apply Exists_exists in Hex as (t & Hin & Hnone).
  rewrite Forall_forall in Hall. destruct (Hall t Hin) as [r Hr]. congruence.
Qed.

(** X1: [generateSummary] and [extractIssues] throw on exactly the same
    workflow results, those with an outcome that has no payload; on every
    other result both return. *)
Theorem normalizer_throws_together (res : WorkflowResult) :
  (generateSummary res = Js.ThrowTypeError
   ↔ Exists (λ t, result t = None) (Js.or_empty (results res)))
  ∧ (extractIssues res = Js.ThrowTypeError
     ↔ Exists (λ t, result t = None) (Js.or_empty (results res)))
  ∧ (generateSummary res = Js.ThrowTypeError
     ↔ extractIssues res = Js.ThrowTypeError).
Proof.
  destruct (payload_or_missing (Js.or_empty (results res))) as [Hall|Hex].
  - pose proof (payload_excludes_missing _ Hall) as Hno.
    rewrite (generateSummary_payload _ Hall), (extractIssues_payload _ Hall).
    repeat split; intros H; try discriminate H; by destruct Hno.
  - rewrite (generateSummary_throws _ Hex), (extractIssues_throws _ Hex).
    repeat split; done.
Qed.

(** [run] over any workflow result: the report when every outcome carries a
    payload, the [catch] block alone otherwise. *)
Lemma run_reports_or_fails (inputs : Inputs) (context : Context)
    (ext : External) (res : WorkflowResult) :
  let tasks := Js.or_empty (results res) in
  run inputs context ext res
  = if decide (Forall Spec.carriesPayload tasks)
    then report inputs context ext
           (Spec.summaryHeader (length tasks) +:+ Spec.summaryLines tasks)
           (Spec.aggregated tasks)
    else [ SetFailed ("Action failed: " +:+ errorMessage ext) ].
Proof.
  intros tasks. destruct (decide (Forall Spec.carriesPayload tasks))
    as [Hall|Hnot].
  - apply run_reports;
      [by apply generateSummary_payload | by apply extractIssues_payload].
  - apply run_throws, generateSummary_throws.
    by destruct (payload_or_missing tasks).
Qed.

Lemma forEach_map {A B S} (f : S → B → Js.completion S) (g : A → B)
    (l : list A) (s : S) :
  Js.forEach f (map g l) s = Js.forEach (λ s x, f s (g x)) l s.
Proof.
  revert s. induction l as [|x l IH]; intros s; simpl; [done|].
  destruct (f s (g x)); simpl; [apply IH | done].
Qed.

Lemma forEach_ext {A S} (f g : S → A → Js.completion S) (l : list A) (s : S) :
  (∀ s x, f s x = g s x) → Js.forEach f l s = Js.forEach g l s.
Proof.
  intros Hfg. revert s. induction l as [|x l IH]; intros s; simpl; [done|].
  rewrite Hfg. destruct (g s x); simpl; [apply IH | done].
Qed.

(** X3: the summary does not depend on the issues of the payloads, and the
    aggregated issues depend neither on the summaries nor on the agent
    names: removing the one leaves the other unchanged, also when it
    throws. *)
Theorem summary_and_issues_independent (tasks : list TaskOutcome)
    (agent : string) :
  generateSummary {| results := Some (withoutIssues <$> tasks) |}
    = generateSummary {| results := Some tasks |}
  ∧ extractIssues {| results := Some (withoutSummary agent <$> tasks) |}
    = extractIssues {| results := Some tasks |}.
Proof.
  unfold generateSummary, extractIssues. simpl. split.
  - rewrite length_fmap. rewrite forEach_map. apply forEach_ext.
    intros text t. unfold summaryStep, withoutIssues. simpl.
    by destruct (result t).
  - rewrite forEach_map. apply forEach_ext.
    intros found t. unfold issuesStep, withoutSummary. simpl.
    by destruct (result t).
Qed.

(** X4: extraction distributes over a split of the task sequence: the
    issues of [first ++ second] are those of [first] followed by those of
    [second], and the whole throws as soon as one part does. *)
Theorem extractIssues_app (first second : list TaskOutcome) :
  extractIssues {| results := Some (first ++ second) |}
  = (a ← extractIssues {| results := Some first |};
     b ← extractIssues {| results := Some second |};
     mret (a ++ b)).
Proof.
  destruct (payload_or_missing first) as [H1|H1].
  - destruct (payload_or_missing second) as [H2|H2].
    + rewrite !extractIssues_payload by (simpl; by try apply Forall_app).
      simpl. f_equal. unfold Spec.aggregated. by rewrite map_app, concat_app.
    + rewrite (extractIssues_throws {| results := Some (first ++ second) |})
        by (simpl; apply Exists_app; by right).
      rewrite (extractIssues_payload {| results := Some first |}) by done.
      by rewrite (extractIssues_throws {| results := Some second |}).
  - rewrite (extractIssues_throws {| results := Some (first ++ second) |})
      by (simpl; apply Exists_app; by left).
    by rewrite (extractIssues_throws {| results := Some first |}).
Qed.

(** ** What a run publishes *)

Lemma omap_annotations {B} (f : Effect → option B) (issues : list Issue) :
  (∀ m a, f (CoreError m a) = None) →
  (∀ m a, f (CoreWarning m a) = None) →
  omap f (annotate <$> issues) = [].
Proof.
  intros He Hw. induction issues as [|i issues IH]; [done|].
  rewrite fmap_cons. csimpl. rewrite annotate_annotation.
  destruct (decide (hasSeverity "critical" i)); by rewrite ?He, ?Hw, IH.
Qed.

Lemma errorsOf_cons (e : Effect) (done : list Effect) :
  errorsOf (e :: done)
  = match e with
    | CoreError _ a => a :: errorsOf done
    | _ => errorsOf done
    end.
Proof. by destruct e. Qed.

Lemma warningsOf_cons (e : Effect) (done : list Effect) :
  warningsOf (e :: done)
  = match e with
    | CoreWarning _ a => a :: warningsOf done
    | _ => warningsOf done
    end.
Proof. by destruct e. Qed.

Lemma errorsOf_annotations (issues : list Issue) :
  errorsOf (annotate <$> issues)
  = Spec.annotation <$> filter (hasSeverity "critical") issues.
Proof.
  induction issues as [|i issues IH]; [done|].
  rewrite fmap_cons, filter_cons, errorsOf_cons, annotate_annotation.
  destruct (decide (hasSeverity "critical" i)); by rewrite IH.
Qed.

Lemma warningsOf_annotations (issues : list Issue) :
  warningsOf (annotate <$> issues)
  = Spec.annotation <$> filter (λ i, ¬ hasSeverity "critical" i) issues.
Proof.
  induction issues as [|i issues IH]; [done|].
  rewrite fmap_cons, filter_cons, warningsOf_cons, annotate_annotation.
  destruct (decide (hasSeverity "critical" i)) as [Hc|Hc].
  - rewrite decide_False by (intros Hn; by apply Hn). by rewrite IH.
  - rewrite decide_True by done. by rewrite IH.
Qed.

Lemma publishedOf_annotations (issues : list Issue) :
  publishedOf (annotate <$> issues) = annotate <$> issues.
Proof.
  unfold publishedOf. induction issues as [|i issues IH]; [done|].
  rewrite fmap_cons. csimpl. rewrite IH, annotate_annotation.
  by destruct (decide (hasSeverity "critical" i)).
Qed.

(** Each step of the [try] block only adds to the effects made so far. *)
Lemma finish_app inputs ext criticalIssues done :
  finish inputs ext criticalIssues done
  = done ++ finish inputs ext criticalIssues [].
Proof.
  unfold finish, caught.
  destruct (failOnErrors inputs
            && bool_decide (0 < length criticalIssues)), (stopped ext);
    simpl; by rewrite ?app_nil_r, <- ?app_assoc.
Qed.

Lemma checkRunStep_app inputs context ext text found done :
  checkRunStep inputs context ext text found done
  = done ++ checkRunStep inputs context ext text found [].
Proof.
  unfold checkRunStep, caught.
  destruct (createCheckRun inputs); [|apply finish_app].
  destruct (checkCreated ext) as [id|message].
  - simpl. rewrite finish_app, (finish_app _ _ _ [_; _]).
    by rewrite <- !app_assoc.
  - simpl. by rewrite <- app_assoc.
Qed.

Lemma commentStep_app inputs context ext text found done :
  commentStep inputs context ext text found done
  = done ++ commentStep inputs context ext text found [].
Proof.
  unfold commentStep, caught.
  destruct (pull_request context) as [prNumber|]; [|apply checkRunStep_app].
  destruct (createPRComment inputs); [|apply checkRunStep_app].
  destruct (commentCreated ext) as [id|message].
  - simpl. rewrite checkRunStep_app, (checkRunStep_app _ _ _ _ _ [_; _]).
    by rewrite <- !app_assoc.
  - simpl. by rewrite <- app_assoc.
Qed.

(** The effects of [report]: the outputs, the annotations, the steps. *)
Lemma report_unfold inputs context ext text found :
  report inputs context ext text found
  = [ SetOutput "results" (resultJson ext);
      SetOutput "summary" text;
      SetOutput "issues-found" (Js.string_of_nat (length found));
      SetOutput "critical-issues"
        (Js.string_of_nat
           (length (filter (hasSeverity "critical") found))) ]
    ++ (annotate <$> found)
    ++ commentStep inputs context ext text found [].
Proof.
  unfold report. rewrite commentStep_app, createAnnotations_map.
  by rewrite <- app_assoc.
Qed.

(** The steps after the annotations annotate nothing and leave the two
    counting outputs alone. *)
Lemma steps_leave_counts inputs context ext text found :
  errorsOf (commentStep inputs context ext text found []) = []
  ∧ warningsOf (commentStep inputs context ext text found []) = []
  ∧ outputsOf "critical-issues"
      (commentStep inputs context ext text found []) = []
  ∧ outputsOf "issues-found"
      (commentStep inputs context ext text found []) = [].
Proof.
  unfold commentStep, checkRunStep, finish, caught.
  destruct (pull_request context), (createPRComment inputs),
    (commentCreated ext), (createCheckRun inputs), (checkCreated ext),
    (failOnErrors inputs
     && bool_decide (0 < length (filter (hasSeverity "critical") found))),
    (stopped ext);
    repeat split; reflexivity.
Qed.

(** X7: the outputs agree with the annotations: [core.error] is called once
    per critical issue and [core.warning] once per other issue, each with
    the record of that issue; "critical-issues" is the number of
    [core.error] calls and "issues-found" the number of both. *)
Theorem outputs_count_annotations (inputs : Inputs) (context : Context)
    (ext : External) (text : string) (found : list Issue) :
  let done := report inputs context ext text found in
  errorsOf done = Spec.annotation <$> filter (hasSeverity "critical") found
  ∧ warningsOf done
    = Spec.annotation <$> filter (λ i, ¬ hasSeverity "critical" i) found
  ∧ outputsOf "critical-issues" done
    = [ Js.string_of_nat (length (errorsOf done)) ]
  ∧ outputsOf "issues-found" done
    = [ Js.string_of_nat (length (errorsOf done) + length (warningsOf done)) ].
Proof.
  intros done.
  destruct (steps_leave_counts inputs context ext text found)
    as (Hte & Htw & Htc & Htf).
  assert (He : errorsOf done
               = Spec.annotation <$> filter (hasSeverity "critical") found).
  { subst done. rewrite report_unfold. unfold errorsOf.
    rewrite !omap_app. fold (errorsOf (annotate <$> found)).
    fold (errorsOf (commentStep inputs context ext text found [])).
    rewrite errorsOf_annotations, Hte. simpl. by rewrite app_nil_r. }
  assert (Hw : warningsOf done
               = Spec.annotation
                   <$> filter (λ i, ¬ hasSeverity "critical" i) found).
  { subst done. rewrite report_unfold. unfold warningsOf.
    rewrite !omap_app. fold (warningsOf (annotate <$> found)).
    fold (warningsOf (commentStep inputs context ext text found [])).
    rewrite warningsOf_annotations, Htw. simpl. by rewrite app_nil_r. }
  split; [exact He|]. split; [exact Hw|].
  rewrite He, Hw, !length_fmap.
  assert (Hsum : length (filter (hasSeverity "critical") found)
                 + length (filter (λ i, ¬ hasSeverity "critical" i) found)
                 = length found).
  { clear. induction found as [|i found IH]; [done|].
    rewrite !filter_cons.
    destruct (decide (hasSeverity "critical" i)) as [Hc|Hc].
    - rewrite decide_False by (intros Hn; by apply Hn). simpl. lia.
    - rewrite decide_True by done. simpl. lia. }
  rewrite Hsum. subst done. rewrite report_unfold. unfold outputsOf.
  rewrite !omap_app.
  fold (outputsOf "critical-issues" (annotate <$> found)).
  fold (outputsOf "issues-found" (annotate <$> found)).
  fold (outputsOf "critical-issues"
          (commentStep inputs context ext text found [])).
  fold (outputsOf "issues-found"
          (commentStep inputs context ext text found [])).
  rewrite Htc, Htf.
  unfold outputsOf at 1 2. rewrite !omap_annotations by done.
  split; reflexivity.
Qed.

(** ** Edges of the comment and the annotations *)

Lemma filter_none {A} (P : A → Prop) `{!∀ x, Decision (P x)} (l : list A) :
  Forall (λ x, ¬ P x) l → filter P l = [].
Proof.
  induction 1 as [|x l Hx _ IH]; [done|].
  by rewrite filter_cons_False.
Qed.

(** X9: when the list is not empty but no issue has a recognized severity,
    the comment announces "Issues Found (N)" and lists nothing: no
    subsection follows the heading, and the no-issues line is not used
    either. *)
Theorem comment_without_recognized_issue (text : string)
    (found : list Issue) (ai : bool) :
  found ≠ [] →
  Forall (λ i, ¬ Spec.recognized i) found →
  commentBody text found ai
  = Spec.header +:+ text +:+ Js.nl
      +:+ Spec.issuesFound (length found) +:+ Spec.footer ai.
Proof.
  intros Hne Hnone. rewrite commentBody_document. unfold Spec.document.
  destruct found as [|i found]; [done|].
  assert (Hgroup : ∀ s, s ∈ ["critical"; "warning"; "info"] →
            filter (hasSeverity s) (i :: found) = []).
  { intros s Hs. apply filter_none.
    eapply Forall_impl; [exact Hnone|].
    intros j Hj Hsev. apply Hj. unfold Spec.recognized.
    rewrite !elem_of_cons, elem_of_nil in Hs.
    destruct Hs as [->|[->|[->|[]]]]; auto. }
  unfold Spec.subsections.
  rewrite !Hgroup by (rewrite !elem_of_cons; auto).
  cbn [Spec.subsection].
  by rewrite !string_app_nil_l, string_app_nil_r.
Qed.

Lemma comment_without_recognized_issue_witness :
  commentBody "s" [oddSeverity] false
  = Spec.header +:+ "s" +:+ Js.nl
      +:+ Spec.issuesFound 1 +:+ Spec.footer false.
Proof.
  apply (comment_without_recognized_issue "s" [oddSeverity] false).
  - discriminate.
  - constructor; [|constructor].
    intros [H|[H|H]]; discriminate H.
Defined.

(** X10: the two channels fall back differently. For an issue without a
    file and without a line (absent or zero), the comment item reads
    "undefined:?" where the annotation has the path "unknown" and the lines
    1 to 1. *)
Theorem fallbacks_differ_by_channel (i : Issue) :
  file i = None →
  line i = None ∨ line i = Some 0%Z →
  issueLine i
    = "- **undefined:?** - " +:+ Js.template (message i) +:+ Js.nl
  ∧ ∃ record,
      annotationOf (annotate i) = Some record
      ∧ Annotation.path record = "unknown"
      ∧ Annotation.start_line record = 1%Z
      ∧ Annotation.end_line record = 1%Z.
Proof.
  intros Hfile Hline. split.
  - unfold issueLine. rewrite Hfile.
    destruct Hline as [-> | ->]; reflexivity.
  - exists (Spec.annotation i). rewrite annotate_annotation.
    split; [by destruct (decide (hasSeverity "critical" i))|].
    unfold Spec.annotation. simpl. rewrite Hfile.
    destruct Hline as [-> | ->]; done.
Qed.

Lemma fallbacks_differ_by_channel_witness :
  issueLine
    {| severity := Some "info"; file := None; line := Some 0%Z;
       message := Some "m"; title := None |}
  = "- **undefined:?** - m" +:+ Js.nl.
Proof.
  refine (proj1 (fallbacks_differ_by_channel
                   {| severity := Some "info"; file := None;
                      line := Some 0%Z; message := Some "m";
                      title := None |} _ _)).
  - reflexivity.
  - right. reflexivity.
Defined.

(** ** AI configuration and the agents *)


(** ** AI configuration and the agents *)

(** X11: the AI configuration writes only [LLM_PROVIDER], and only when AI
    is enabled with a provider other than "none": the variable then holds
    the provider, whatever it held before. When AI is disabled or the
    provider is "none", the environment is left as it was and nothing is
    logged. At most one debug line is written, and the variable holds
    "none" afterwards only if it did before and was left alone. *)
Theorem configureAI_environment (ai : bool) (llmProvider : string)
    (env : ProcessEnv) :
  let after := (configureAI ai llmProvider env).1 in
  let debug := (configureAI ai llmProvider env).2 in
  OPENAI_API_KEY after = OPENAI_API_KEY env
  ∧ ANTHROPIC_API_KEY after = ANTHROPIC_API_KEY env
  ∧ LLM_PROVIDER after
    = (if ai && bool_decide (llmProvider ≠ "none")
       then Some llmProvider else LLM_PROVIDER env)
  ∧ (LLM_PROVIDER after = Some "none"
     ↔ LLM_PROVIDER env = Some "none" ∧ (ai = false ∨ llmProvider = "none"))
  ∧ length debug ≤ 1
  ∧ (ai = false ∨ llmProvider = "none" → after = env ∧ debug = []).
Proof.
  intros after debug. subst after debug. unfold configureAI.
  destruct ai; simpl.
  - destruct (decide (llmProvider = "none")) as [Hp|Hp].
    + rewrite bool_decide_false by (intros Hn; by apply Hn). simpl.
      split; [done|]. split; [done|]. split; [done|].
      split; [|split; [lia | done]].
      split; [intros Hnone; split; [done | by right] | by intros [Hnone _]].
    + rewrite bool_decide_true by done.
      assert (Hcases :
        ∀ out : ProcessEnv * list string,
          LLM_PROVIDER out.1 = Some llmProvider →
          OPENAI_API_KEY out.1 = OPENAI_API_KEY env →
          ANTHROPIC_API_KEY out.1 = ANTHROPIC_API_KEY env →
          length out.2 ≤ 1 →
          OPENAI_API_KEY out.1 = OPENAI_API_KEY env
          ∧ ANTHROPIC_API_KEY out.1 = ANTHROPIC_API_KEY env
          ∧ LLM_PROVIDER out.1 = Some llmProvider
          ∧ (LLM_PROVIDER out.1 = Some "none"
             ↔ LLM_PROVIDER env = Some "none"
               ∧ (true = false ∨ llmProvider = "none"))
          ∧ length out.2 ≤ 1
          ∧ (true = false ∨ llmProvider = "none"
             → out.1 = env ∧ out.2 = [])).
      { intros out Hl Ho Ha Hd.
        split; [done|]. split; [done|]. split; [done|].
        split; [|split; [done|]].
        - rewrite Hl. split.
          + intros [= Heq]. by destruct Hp.
          + intros [_ [Hai|Heq]]; [discriminate Hai | by destruct Hp].
        - intros [Hai|Heq]; [discriminate Hai | by destruct Hp]. }
      destruct (bool_decide (llmProvider = "openai")
                && Js.truthy_string (OPENAI_API_KEY env));
        [apply Hcases; simpl; auto|].
      destruct (bool_decide (llmProvider = "anthropic")
                && Js.truthy_string (ANTHROPIC_API_KEY env));
        [apply Hcases; simpl; auto|].
      destruct (bool_decide (llmProvider = "github"));
        apply Hcases; simpl; auto.
  - split; [done|]. split; [done|]. split; [done|].
    split; [|split; [lia | done]].
    split; [intros Hnone; split; [done | by left] | by intros [Hnone _]].
Qed.

(** X12: the agents are registered with AI enabled unless the environment
    already had [LLM_PROVIDER] set to "none" and the inputs left it alone.
    In particular, when that variable is not "none" beforehand, every agent
    has AI enabled even with ai-enabled off or with the provider "none". *)
Theorem agents_ai_flag (ai : bool) (llmProvider : string)
    (env : ProcessEnv) (context : Context) :
  Forall (λ a, Registry.enableAI a = true)
    (startAgents ai llmProvider env context)
  ↔ ¬ (LLM_PROVIDER env = Some "none"
       ∧ (ai = false ∨ llmProvider = "none")).
Proof.
  pose proof (configureAI_environment ai llmProvider env)
    as (_ & _ & _ & Hnone & _).
  unfold startAgents, registerGitHubAgents.
  rewrite <- Hnone.
  rewrite !Forall_cons, Forall_nil. simpl.
  rewrite !bool_decide_eq_true. tauto.
Qed.

(** With nothing set in the environment, ai-enabled off and the provider
    "none", all four agents are still constructed with AI enabled. *)
Example agents_ai_flag_disabled_inputs :
  Registry.enableAI
    <$> startAgents false "none"
          {| LLM_PROVIDER := None; OPENAI_API_KEY := None;
             ANTHROPIC_API_KEY := None |} sampleContext
  = [true; true; true; true].
Proof. reflexivity. Qed.

(** ** The workflow table and the registered agents *)

Lemma getWorkflowDefinition_own (key : string) (w : Agents.WorkflowDefinition) :
  Agents.getWorkflowDefinition key = Js.Own w →
  Agents.workflows !! key = Some w
  ∨ Agents.workflows !! key = None ∧ w = {| Agents.tasks := [] |}.
Proof.
  unfold Agents.getWorkflowDefinition, Js.get.
  destruct (Agents.workflows !! key) as [w'|].
  - intros [= ->]. by left.
  - destruct (bool_decide (key ∈ Js.Object_prototype));
      [discriminate|]. intros [= <-]. by right.
Qed.

(** X13: resolution never yields [undefined], and for a key that resolves
    to a workflow the task list is non-empty exactly when the key is one of
    the four built-in ones: a caller can tell a no-op workflow by its empty
    task list. *)
Theorem empty_tasks_iff_unknown (key : string) :
  Agents.getWorkflowDefinition key ≠ Js.Undefined
  ∧ ∀ w, Agents.getWorkflowDefinition key = Js.Own w →
      (Agents.tasks w ≠ []
       ↔ key ∈ ["code-review"; "full-analysis"; "pre-deploy";
                "security-scan"]).
Proof.
  split.
  - unfold Agents.getWorkflowDefinition, Js.get.
    destruct (Agents.workflows !! key);
      [done | by destruct (bool_decide (key ∈ Js.Object_prototype))].
  - intros w Hw. rewrite <- workflows_keys.
    destruct (getWorkflowDefinition_own _ _ Hw) as [Hsome|[Hnone ->]].
    + split; [by rewrite Hsome|]. intros _.
      assert (Hkey : is_Some (Agents.workflows !! key)) by by rewrite Hsome.
      apply workflows_keys in Hkey.
      rewrite !elem_of_cons, elem_of_nil in Hkey.
      destruct Hkey as [->|[->|[->|[->|[]]]]];
        vm_compute in Hsome; injection Hsome as <-; discriminate.
    + rewrite Hnone. split; [done | by intros [? ?]].
Qed.

(** X14: no workflow names an agent that is not registered: for every key
    that resolves to a workflow, each task's [agentId] is the [agentId] of
    one of the agents [registerGitHubAgents] registers, whatever the
    environment and the context. *)
Theorem tasks_name_registered_agents (key : string)
    (w : Agents.WorkflowDefinition) (t : Agents.TaskDescriptor)
    (env : ProcessEnv) (context : Context) :
  Agents.getWorkflowDefinition key = Js.Own w →
  t ∈ Agents.tasks w →
  Agents.agentId t ∈ (Registry.agentId <$> registerGitHubAgents env context).
Proof.
  intros Hw Ht.
  change (Registry.agentId <$> registerGitHubAgents env context)
    with ["github-code-analyzer"; "github-test-runner";
          "github-security-scanner"; "github-deployment-validator"].
  destruct (getWorkflowDefinition_own _ _ Hw) as [Hsome|[_ ->]].
  - assert (Hkey : is_Some (Agents.workflows !! key)) by by rewrite Hsome.
    apply workflows_keys in Hkey.
    rewrite !elem_of_cons, elem_of_nil in Hkey.
    destruct Hkey as [->|[->|[->|[->|[]]]]];
      vm_compute in Hsome; injection Hsome as <-; simpl in Ht;
      rewrite !elem_of_cons, elem_of_nil in Ht;
      rewrite !elem_of_cons;
      destruct Ht as [->|Ht]; simpl; auto;
      try (destruct Ht as [->|Ht]; simpl; auto);
      try (destruct Ht as [->|Ht]; simpl; auto);
      try done.
  - simpl in Ht. by apply elem_of_nil in Ht.
Qed.

Lemma tasks_name_registered_agents_witness :
  "github-deployment-validator"
  ∈ (Registry.agentId
       <$> registerGitHubAgents
             {| LLM_PROVIDER := None; OPENAI_API_KEY := None;
                ANTHROPIC_API_KEY := None |} sampleContext).
Proof.
  refine (tasks_name_registered_agents "pre-deploy"
            {| Agents.tasks := [
                 {| Agents.agentId := "github-test-runner";
                    Agents.taskType := "test" |};
                 {| Agents.agentId := "github-security-scanner";
                    Agents.taskType := "scan" |};
                 {| Agents.agentId := "github-deployment-validator";
                    Agents.taskType := "validate" |} ] |}
            {| Agents.agentId := "github-deployment-validator";
               Agents.taskType := "validate" |} _ _ _ _).
  - vm_compute. reflexivity.
  - apply list_elem_of_further, list_elem_of_further, list_elem_of_here.
Defined.

(** ** Failure signals and requests of a run *)

Lemma found_not_action (n message : string) :
  "Found " +:+ n ≠ "Action failed: " +:+ message.
Proof. rewrite !string_app_cons. discriminate. Qed.

Lemma failuresOf_report inputs context ext text found :
  failuresOf (report inputs context ext text found)
  = Spec.failureSignals inputs context ext found.
Proof.
  rewrite report_unfold. unfold failuresOf.
  rewrite !omap_app, omap_annotations by done.
  unfold Spec.failureSignals, Spec.commentAsked, Spec.rejection.
  unfold commentStep, checkRunStep, finish, caught.
  destruct (pull_request context), (createPRComment inputs),
    (commentCreated ext), (createCheckRun inputs), (checkCreated ext),
    (failOnErrors inputs
     && bool_decide (0 < length (filter (hasSeverity "critical") found))),
    (stopped ext);
    reflexivity.
Qed.

Lemma commentsOf_report inputs context ext text found :
  commentsOf (report inputs context ext text found)
  = match pull_request context with
    | Some prNumber =>
        if createPRComment inputs
        then [ createPullRequestComment context prNumber text found
                 (aiEnabled inputs) ]
        else []
    | None => []
    end.
Proof.
  rewrite report_unfold. unfold commentsOf.
  rewrite !omap_app, omap_annotations by done.
  unfold commentStep, checkRunStep, finish, caught.
  destruct (pull_request context), (createPRComment inputs),
    (commentCreated ext), (createCheckRun inputs), (checkCreated ext),
    (failOnErrors inputs
     && bool_decide (0 < length (filter (hasSeverity "critical") found))),
    (stopped ext);
    reflexivity.
Qed.

Lemma checksOf_report inputs context ext text found :
  checksOf (report inputs context ext text found)
  = if createCheckRun inputs
       && negb (Spec.commentAsked inputs context
                && bool_decide
                     (is_Some (Spec.rejection (commentCreated ext))))
    then [ createCheckRunReport context text found (resultText ext) ]
    else [].
Proof.
  rewrite report_unfold. unfold checksOf.
  rewrite !omap_app, omap_annotations by done.
  unfold Spec.commentAsked, Spec.rejection.
  unfold commentStep, checkRunStep, finish, caught.
  destruct (pull_request context), (createPRComment inputs),
    (commentCreated ext), (createCheckRun inputs), (checkCreated ext),
    (failOnErrors inputs
     && bool_decide (0 < length (filter (hasSeverity "critical") found))),
    (stopped ext);
    reflexivity.
Qed.

Lemma publishedOf_report inputs context ext text found :
  publishedOf (report inputs context ext text found)
  = [ SetOutput "results" (resultJson ext);
      SetOutput "summary" text;
      SetOutput "issues-found" (Js.string_of_nat (length found));
      SetOutput "critical-issues"
        (Js.string_of_nat
           (length (filter (hasSeverity "critical") found))) ]
    ++ (annotate <$> found)
    ++ publishedOf (commentStep inputs context ext text found []).
Proof.
  rewrite report_unfold. unfold publishedOf at 1.
  rewrite !omap_app. fold (publishedOf (annotate <$> found)).
  fold (publishedOf (commentStep inputs context ext text found [])).
  by rewrite publishedOf_annotations.
Qed.

(** X2: [run] signals failure for these reasons and no other. An outcome
    without payload gives the one signal "Action failed: <message>" with the
    engine's message. Otherwise a rejected call of the publisher that was
    asked for gives "Action failed: <message>" with the message of the
    rejection, and nothing after it; without such a rejection the signals
    are "Found <n> critical issues", under fail-on-errors with a critical
    issue, and then "Action failed: <message>" if stopping the orchestrator
    rejects. *)
Theorem run_failure_signals (inputs : Inputs) (context : Context)
    (ext : External) (res : WorkflowResult) :
  let tasks := Js.or_empty (results res) in
  let n := length (filter (hasSeverity "critical") (Spec.aggregated tasks)) in
  failuresOf (run inputs context ext res)
  = if decide (Forall Spec.carriesPayload tasks) then
      match
        (if createPRComment inputs
            && bool_decide (is_Some (pull_request context))
         then Spec.rejection (commentCreated ext) else None),
        (if createCheckRun inputs
         then Spec.rejection (checkCreated ext) else None)
      with
      | Some message, _ => [ "Action failed: " +:+ message ]
      | None, Some message => [ "Action failed: " +:+ message ]
      | None, None =>
          (if failOnErrors inputs && bool_decide (0 < n)
           then [ "Found " +:+ Js.string_of_nat n +:+ " critical issues" ]
           else [])
          ++ match Spec.rejection (stopped ext) with
             | Some message => [ "Action failed: " +:+ message ]
             | None => []
             end
      end
    else [ "Action failed: " +:+ errorMessage ext ].
Proof.
  intros tasks n. rewrite run_reports_or_fails. fold tasks.
  destruct (decide (Forall Spec.carriesPayload tasks)); [|done].
  by rewrite failuresOf_report.
Qed.

(** X6: [run] asks for a pull-request comment exactly when every outcome
    carries a payload, create-pr-comment is set and the event has a pull
    request; it asks for a check run exactly when every outcome carries a
    payload, create-check-run is set and no comment call before it was
    rejected. It never asks for more than one of either. *)
Theorem run_publish_requests (inputs : Inputs) (context : Context)
    (ext : External) (res : WorkflowResult) :
  let tasks := Js.or_empty (results res) in
  let text := Spec.summaryHeader (length tasks) +:+ Spec.summaryLines tasks in
  let found := Spec.aggregated tasks in
  commentsOf (run inputs context ext res)
    = (if decide (Forall Spec.carriesPayload tasks) then
         match pull_request context with
         | Some prNumber =>
             if createPRComment inputs
             then [ createPullRequestComment context prNumber text found
                      (aiEnabled inputs) ]
             else []
         | None => []
         end
       else [])
  ∧ checksOf (run inputs context ext res)
    = (if decide (Forall Spec.carriesPayload tasks) then
         if createCheckRun inputs
            && negb (createPRComment inputs
                     && bool_decide (is_Some (pull_request context))
                     && bool_decide
                          (is_Some (Spec.rejection (commentCreated ext))))
         then [ createCheckRunReport context text found (resultText ext) ]
         else []
       else []).
Proof.
  intros tasks text found. rewrite run_reports_or_fails. fold tasks.
  destruct (decide (Forall Spec.carriesPayload tasks)); [|done].
  fold text found. by rewrite commentsOf_report, checksOf_report.
Qed.

(** X5: the input fail-on-errors suppresses and changes nothing a run
    publishes: outputs, annotations and requests are the same with it as
    without it, and every failure signal of the run without it is still
    signalled with it, in the same order. *)
Theorem failOnErrors_suppresses_nothing (inputs : Inputs) (context : Context)
    (ext : External) (res : WorkflowResult) :
  let lenient :=
    {| aiEnabled := aiEnabled inputs;
       createPRComment := createPRComment inputs;
       createCheckRun := createCheckRun inputs;
       failOnErrors := false |} in
  publishedOf (run inputs context ext res)
    = publishedOf (run lenient context ext res)
  ∧ failuresOf (run lenient context ext res)
    `sublist_of` failuresOf (run inputs context ext res).
Proof.
  intros lenient. rewrite !run_reports_or_fails.
  destruct (decide (Forall Spec.carriesPayload (Js.or_empty (results res))));
    [|done].
  set (found := Spec.aggregated (Js.or_empty (results res))).
  set (text := Spec.summaryHeader _ +:+ _).
  split.
  - rewrite !publishedOf_report. do 2 f_equal.
    unfold commentStep, checkRunStep, finish, caught. simpl.
    destruct (pull_request context), (createPRComment inputs),
      (commentCreated ext), (createCheckRun inputs), (checkCreated ext),
      (failOnErrors inputs
       && bool_decide (0 < length (filter (hasSeverity "critical") found))),
      (stopped ext);
      reflexivity.
  - rewrite !failuresOf_report.
    unfold Spec.failureSignals, Spec.commentAsked, Spec.rejection. simpl.
    destruct (pull_request context), (createPRComment inputs),
      (commentCreated ext), (createCheckRun inputs), (checkCreated ext),
      (failOnErrors inputs
       && bool_decide (0 < length (filter (hasSeverity "critical") found))),
      (stopped ext);
      simpl; repeat constructor.
Qed.

(** X8: the signal "Found <n> critical issues" and the check run agree. The
    run raises that signal exactly when every outcome carries a payload,
    fail-on-errors is set, the check run for the same issues concludes
    "failure", and no call of the publisher that was asked for rejected;
    and whenever the check run concludes "failure" its title is the text of
    that signal. *)
Theorem found_signal_matches_check (inputs : Inputs) (context : Context)
    (ext : External) (res : WorkflowResult) :
  let tasks := Js.or_empty (results res) in
  let text := Spec.summaryHeader (length tasks) +:+ Spec.summaryLines tasks in
  let found := Spec.aggregated tasks in
  let check := createCheckRunReport context text found (resultText ext) in
  let signal :=
    "Found "
      +:+ Js.string_of_nat (length (filter (hasSeverity "critical") found))
      +:+ " critical issues" in
  (signal ∈ failuresOf (run inputs context ext res)
   ↔ Forall Spec.carriesPayload tasks
     ∧ failOnErrors inputs = true
     ∧ Checks.conclusion check = "failure"
     ∧ (createPRComment inputs = true → is_Some (pull_request context) →
        Spec.rejection (commentCreated ext) = None)
     ∧ (createCheckRun inputs = true →
        Spec.rejection (checkCreated ext) = None))
  ∧ (Checks.conclusion check = "failure" →
     Checks.title (Checks.output_ check) = signal).
Proof.
  intros tasks text found check signal.
  assert (Hcheck :
    Checks.conclusion check
    = if bool_decide (0 < length (filter (hasSeverity "critical") found))
      then "failure" else "success") by reflexivity.
  assert (Htitle :
    Checks.title (Checks.output_ check)
    = if bool_decide (0 < length (filter (hasSeverity "critical") found))
      then signal else "All checks passed") by reflexivity.
  split.
  - rewrite run_reports_or_fails. fold tasks.
    destruct (decide (Forall Spec.carriesPayload tasks)) as [Hall|Hnot].
    + fold text found. rewrite failuresOf_report, Hcheck.
      unfold Spec.failureSignals, Spec.commentAsked, Spec.rejection.
      fold signal.
      destruct (pull_request context) as [prNumber|],
        (createPRComment inputs), (commentCreated ext) as [cid|cm],
        (createCheckRun inputs), (checkCreated ext) as [kid|km],
        (failOnErrors inputs),
        (bool_decide
           (0 < length (filter (hasSeverity "critical") found))),
        (stopped ext) as [u|sm];
        simpl; rewrite ?elem_of_cons, ?elem_of_nil;
        (split;
         [ intros Hin;
           repeat (destruct Hin as [Hin|Hin]);
           try (by destruct Hin);
           try (by destruct (found_not_action _ _ Hin));
           repeat split; try done; intros; try done
         | intros (_ & Hf & Hc & Hcomment & Hcheckrun);
           try discriminate Hf; try discriminate Hc;
           try (by discriminate Hcomment);
           try (by discriminate Hcheckrun);
           try (by specialize (Hcomment eq_refl (mk_is_Some _ _ eq_refl)));
           try (by specialize (Hcheckrun eq_refl));
           auto ]).
    + unfold failuresOf. csimpl. rewrite elem_of_cons, elem_of_nil. split.
      * intros [Heq|[]]. by destruct (found_not_action _ _ Heq).
      * by intros (Hall & _).
  - rewrite Hcheck, Htitle.
    by destruct (bool_decide
                   (0 < length (filter (hasSeverity "critical") found))).
Qed.

(** ** Worked cases *)

(** C1, where the code departs from it: for the one issue of severity
    "error" the comment announces "Issues Found (1)" and lists the issue in
    no group, not in the info group either, so the sizes of the three
    groups sum to 0 and not to the length of the list; yet the annotation
    loop reports the same issue, as a warning, and the output issues-found
    counts it. *)
Theorem unrecognized_severity_listed_nowhere :
  commentBody "Analyzed 1 workflow tasks" [oddSeverity] false
    = "## 🤖 EquilateralAgents Analysis" +:+ Js.nl +:+ Js.nl
        +:+ "### Summary" +:+ Js.nl
        +:+ "Analyzed 1 workflow tasks" +:+ Js.nl +:+ Js.nl
        +:+ "### Issues Found (1)" +:+ Js.nl +:+ Js.nl +:+ Js.nl
        +:+ "---" +:+ Js.nl
        +:+ "*Powered by [EquilateralAgents](https://github.com/marketplace/equilateral-agents)*"
  ∧ length (filter (hasSeverity "critical") [oddSeverity])
      + length (filter (hasSeverity "warning") [oddSeverity])
      + length (filter (hasSeverity "info") [oddSeverity]) = 0
  ∧ createAnnotations [oddSeverity] []
    = [ CoreWarning (Some "broken")
          {| Annotation.path := "d.js"; Annotation.start_line := 7;
             Annotation.end_line := 7;
             Annotation.annotation_level := "warning";
             Annotation.message := Some "broken";
             Annotation.title := "Issue found" |} ]
  ∧ outputsOf "issues-found"
      (report sampleInputs sampleContext sampleExternal
         "Analyzed 1 workflow tasks" [oddSeverity])
    = [ "1" ].
Proof. repeat split; vm_compute; reflexivity. Qed.

(** The comment for a warning and a critical issue lists the critical one
    first, each with its item. *)
Example comment_critical_item :
  commentBody "s" [unusedVar; sqlInjection] true
  = "## 🤖 EquilateralAgents Analysis" +:+ Js.nl +:+ Js.nl
      +:+ "### Summary" +:+ Js.nl +:+ "s" +:+ Js.nl +:+ Js.nl
      +:+ "### Issues Found (2)" +:+ Js.nl +:+ Js.nl
      +:+ "#### 🔴 Critical (1)" +:+ Js.nl
      +:+ "- **a.js:10** - SQL injection" +:+ Js.nl +:+ Js.nl
      +:+ "#### 🟡 Warnings (1)" +:+ Js.nl
      +:+ "- **b.js:5** - unused var" +:+ Js.nl +:+ Js.nl +:+ Js.nl
      +:+ "---" +:+ Js.nl
      +:+ "*Powered by [EquilateralAgents](https://github.com/marketplace/equilateral-agents) • AI-Enhanced Analysis Enabled*".
Proof. vm_compute. reflexivity. Qed.

(** Numbers beyond the safe integers print as the engine prints them. *)
Example number_rendering :
  Js.string_of_Z 10 = "10"
  ∧ Js.string_of_Z (-42) = "-42"
  ∧ Js.string_of_Z 9007199254740993 = "9007199254740992"
  ∧ Js.string_of_Z (2 ^ 64) = "18446744073709552000"
  ∧ Js.string_of_Z (10 ^ 21 - 1) = "1e+21"
  ∧ Js.string_of_Z (10 ^ 21) = "1e+21"
  ∧ Js.string_of_Z (2 ^ 70) = "1.1805916207174113e+21"
  ∧ Js.string_of_Z (- 123456789012345678901234) = "-1.2345678901234569e+23"
  ∧ Js.string_of_Z (2 ^ 1024) = "Infinity".
Proof. repeat split; vm_compute; reflexivity. Qed.

Example comment_line_exponent :
  issueLine farLine = "- **a.js:1e+21** - m" +:+ Js.nl
  ∧ Spec.item farLine = "- **a.js:1e+21** - m" +:+ Js.nl.
Proof. split; vm_compute; reflexivity. Qed.

(** A rejected comment ends the run after the outputs and the annotation:
    no check run is asked for and the critical issue is not signalled. *)
Example rejected_comment_ends_run :
  run sampleInputs sampleContext rejectingExternal
    {| results := Some [ {| agentId := "a";
                            result := Some {| summary := None;
                                              issues := Some [sqlInjection]
                                           |} |} ] |}
  = [ SetOutput "results" "{}";
      SetOutput "summary" ("Analyzed 1 workflow tasks" +:+ Js.nl);
      SetOutput "issues-found" "1";
      SetOutput "critical-issues" "1";
      CoreError (Some "SQL injection")
        {| Annotation.path := "a.js"; Annotation.start_line := 10;
           Annotation.end_line := 10;
           Annotation.annotation_level := "failure";
           Annotation.message := Some "SQL injection";
           Annotation.title := "Issue found" |};
      CreateComment
        (createPullRequestComment sampleContext 7
           ("Analyzed 1 workflow tasks" +:+ Js.nl) [sqlInjection] true);
      SetFailed "Action failed: Bad credentials" ].
Proof. vm_compute. reflexivity. Qed.
